(** * Datalake_etl.py: the Sparkify data-lake ETL, embedded and checked

    A shallow embedding of [Data-Lake-Project/Datalake_etl.py]: the two
    transformers [process_song_data] and [process_log_data], the entry point
    [main], and the relational operators they call on Spark data frames.

    What is modelled, and how.
    - A data frame is its list of column names and its list of rows; column
      names may repeat (after a join), and a name is resolved the way Spark's
      analyzer does it: not found and found twice are both errors.
    - Python raises, so every step returns a [result]; the storage the job reads
      and writes is a finite map from paths to tables, threaded through the
      steps of a run, and a raise keeps what was written before it.
    - A global name of the module is looked up in [module_globals], the names
      that its [import] lines and [def]s bind; any other name is a NameError.
    - Session set-up and the credentials (lines 10 to 25) are outside the model.
    - The external engine is modelled at its interface: a read returns the table
      stored under the path (all of its columns, the partition columns too),
      a write stores the table under the path according to its save mode. *)

From Stdlib Require Import ZArith QArith Qround List String Ascii Bool Lia.
From stdpp Require Import base gmap strings.
Import ListNotations.

Local Open Scope string_scope.
Local Open Scope list_scope.
Local Open Scope Z_scope.

(** ** Exceptions and results *)

(** What Spark's analyzer and its file sources refuse. *)
Inductive analysis_error :=
| CannotResolve (name : string)
| AmbiguousReference (name : string)
| PathAlreadyExists (path : string)
| PathDoesNotExist (path : string)
| PartitionColumnNotFound (name : string).

(** The exceptions a run can end in. *)
Inductive exn :=
| NameError (name : string)
| AttributeError (name : string)
| TypeError (what : string)
| ValueError (what : string)
| ParseException (text : string)
| AnalysisException (why : analysis_error).

Inductive result (A : Type) :=
| Ok (a : A)
| Err (e : exn).
Arguments Ok {A} a.
Arguments Err {A} e.

Global Instance result_ret : MRet result := fun _ a => Ok a.
Global Instance result_bind : MBind result := fun _ _ k r =>
  match r with
  | Ok a => k a
  | Err e => Err e
  end.

(** ** Timestamps *)

(** A naive Python [datetime]: the seven fields, no time zone. *)
Record datetime := mkDatetime {
  dt_year : Z;
  dt_month : Z;
  dt_day : Z;
  dt_hour : Z;
  dt_minute : Z;
  dt_second : Z;
  dt_microsecond : Z
}.

(** Day number since 1970-01-01 to proleptic Gregorian (year, month, day). *)
Definition civil_from_days (days : Z) : Z * Z * Z :=
  let z := days + 719468 in
  let era := z / 146097 in
  let doe := z - era * 146097 in
  let yoe := (doe - doe / 1460 + doe / 36524 - doe / 146096) / 365 in
  let doy := doe - (365 * yoe + yoe / 4 - yoe / 100) in
  let mp := (5 * doy + 2) / 153 in
  let d := doy - (153 * mp + 2) / 5 + 1 in
  let m := if mp <? 10 then mp + 3 else mp - 9 in
  let y := yoe + era * 400 in
  (if m <=? 2 then y + 1 else y, m, d).

(** The inverse: (year, month, day) to the day number since 1970-01-01. *)
Definition days_from_civil (y m d : Z) : Z :=
  let y := if m <=? 2 then y - 1 else y in
  let era := y / 400 in
  let yoe := y - era * 400 in
  let mp := if m <=? 2 then m + 9 else m - 3 in
  let doy := (153 * mp + 2) / 5 + d - 1 in
  let doe := yoe * 365 + yoe / 4 - yoe / 100 + doy in
  era * 146097 + doe - 719468.

(** The datetime [secs] whole seconds after the epoch, with [us] microseconds. *)
Definition datetime_at (secs us : Z) : datetime :=
  let days := secs / 86400 in
  let rem := secs mod 86400 in
  let '(y, m, d) := civil_from_days days in
  mkDatetime y m d (rem / 3600) (rem mod 3600 / 60) (rem mod 60) us.

(** Python's [round]: to the nearest integer, ties to the even one. *)
Definition round_half_even (q : Q) : Z :=
  let f := Qfloor q in
  match Qcompare (q - inject_Z f) (1 # 2) with
  | Lt => f
  | Gt => f + 1
  | Eq => if Z.even f then f else f + 1
  end.

(** [datetime.utcfromtimestamp(t)]: whole seconds and the fraction rounded to
    microseconds, then the UTC calendar fields; a year outside 1..9999 raises.
    The float [t] is carried as the exact rational it stands for: for the
    millisecond quotients this program passes, up to the year 2100 and beyond,
    the double is nearer than half a microsecond to it, so the rounded
    microseconds are the same. *)
Definition utcfromtimestamp (t : Q) : result datetime :=
  let secs := Qfloor t in
  let us := round_half_even ((t - inject_Z secs) * inject_Z 1000000) in
  let '(secs, us) := if 1000000 <=? us then (secs + 1, us - 1000000) else (secs, us) in
  let dt := datetime_at secs us in
  if (1 <=? dt_year dt) && (dt_year dt <=? 9999) then Ok dt
  else Err (ValueError "year is out of range").

(** Spark's column functions on a timestamp, as [pyspark.sql.functions] names
    them.  The fields are those of the naive datetime the UDF returned (the
    session's time zone is the worker's, so the wall clock round-trips). *)
Definition hour (t : datetime) : Z := dt_hour t.
Definition dayofmonth (t : datetime) : Z := dt_day t.
Definition month (t : datetime) : Z := dt_month t.
Definition year (t : datetime) : Z := dt_year t.

(** ISO-8601 week of the year: the week of the Thursday of [t]'s week, counted
    in that Thursday's year. *)
Definition weekofyear (t : datetime) : Z :=
  let d := days_from_civil (dt_year t) (dt_month t) (dt_day t) in
  let monday0 := (d + 3) mod 7 in
  let thursday := d - monday0 + 3 in
  let '(ty, _, _) := civil_from_days thursday in
  (thursday - days_from_civil ty 1 1) / 7 + 1.


(** ** Values and data frames *)

(** A cell.  A double is carried as its IEEE-754 bit pattern: the job only
    copies doubles and compares rows for equality. *)
Inductive value :=
| Null
| Int (z : Z)
| Dbl (bits : Z)
| Str (s : string)
| Timestamp (t : datetime).

Global Instance datetime_eq_dec : EqDecision datetime.
Proof. solve_decision. Defined.

Global Instance value_eq_dec : EqDecision value.
Proof. solve_decision. Defined.

(** A data frame: the column names, in order, and the rows, each one value per
    column.  Names may repeat: a join keeps the columns of both sides. *)
Record DataFrame := mkDataFrame {
  df_columns : list string;
  df_rows : list (list value)
}.

(** Every row has one value per column. *)
Definition well_formed (df : DataFrame) : Prop :=
  Forall (fun r => length r = length (df_columns df)) (df_rows df).

Definition cell (i : nat) (r : list value) : value := default Null (r !! i).

(** SQL equality as a filter or join condition reads it: a comparison with
    null is null, and a row passes only on true. *)
Definition sql_eq (a b : value) : bool :=
  match a, b with
  | Null, _ | _, Null => false
  | _, _ => bool_decide (a = b)
  end.

(** *** Resolving a column name *)

Fixpoint positions_from (i : nat) (name : string) (cols : list string) : list nat :=
  match cols with
  | [] => []
  | c :: cs =>
      if String.eqb c name then i :: positions_from (S i) name cs
      else positions_from (S i) name cs
  end.

Definition positions (name : string) (cols : list string) : list nat :=
  positions_from 0 name cols.

(** The analyzer's rule: a name denotes the one column that carries it.  Names
    are compared as written; Spark's default comparison ignores case, which
    makes no difference to a name this program uses. *)
Definition resolve (name : string) (cols : list string) : result nat :=
  match positions name cols with
  | [] => Err (AnalysisException (CannotResolve name))
  | [i] => Ok i
  | _ => Err (AnalysisException (AmbiguousReference name))
  end.

Fixpoint resolve_all (names : list string) (cols : list string) : result (list nat) :=
  match names with
  | [] => Ok []
  | n :: ns => i ← resolve n cols; rest ← resolve_all ns cols; Ok (i :: rest)
  end.

(** Python's [df.name]: an AttributeError unless [name] is a column, then the
    analyzer's resolution. *)
Definition getattr (df : DataFrame) (name : string) : result nat :=
  if bool_decide (name ∈ df_columns df) then resolve name (df_columns df)
  else Err (AttributeError name).

(** *** The relational operators *)

Definition project (idx : list nat) (r : list value) : list value :=
  (fun i => cell i r) <$> idx.

(** [df.select(names)] *)
Definition select (names : list string) (df : DataFrame) : result DataFrame :=
  idx ← resolve_all names (df_columns df);
  Ok (mkDataFrame names (project idx <$> df_rows df)).

Fixpoint split_spaces (cur : string) (s : string) : list string :=
  match s with
  | EmptyString => [cur]
  | String c s' =>
      if Ascii.eqb c " " then cur :: split_spaces "" s'
      else split_spaces (cur +:+ String c "") s'
  end.

Definition is_as (tok : string) : bool :=
  String.eqb tok "as" || String.eqb tok "AS" || String.eqb tok "As" || String.eqb tok "aS".

(** The SQL expressions this program writes: a column name, or
    [column as alias].  The result is (column, output name). *)
Definition parse_expr (e : string) : result (string * string) :=
  match List.filter (fun t => negb (String.eqb t "")) (split_spaces "" e) with
  | [c] => Ok (c, c)
  | [c; kw; a] => if is_as kw then Ok (c, a) else Err (ParseException e)
  | _ => Err (ParseException e)
  end.

Fixpoint parse_all (es : list string) : result (list (string * string)) :=
  match es with
  | [] => Ok []
  | e :: es' => p ← parse_expr e; ps ← parse_all es'; Ok (p :: ps)
  end.

(** [df.selectExpr(exprs)] *)
Definition selectExpr (exprs : list string) (df : DataFrame) : result DataFrame :=
  ps ← parse_all exprs;
  idx ← resolve_all (fst <$> ps) (df_columns df);
  Ok (mkDataFrame (snd <$> ps) (project idx <$> df_rows df)).

(** [df.filter(df.c == v)], with [i] the position of [c]. *)
Definition filter_eq (i : nat) (v : value) (df : DataFrame) : DataFrame :=
  mkDataFrame (df_columns df)
    (List.filter (fun r => sql_eq (cell i r) v) (df_rows df)).

(** [df.dropDuplicates()]: one row of each set of rows equal in every column. *)
Definition dropDuplicates (df : DataFrame) : DataFrame :=
  mkDataFrame (df_columns df) (remove_dups (df_rows df)).

Fixpoint eval_rows (f : list value -> result value) (rs : list (list value))
  : result (list value) :=
  match rs with
  | [] => Ok []
  | r :: rs' => v ← f r; vs ← eval_rows f rs'; Ok (v :: vs)
  end.

(** [df.withColumn(name, f(src))]: the column [name] is appended, or, when the
    frame has columns of that name, they are replaced.  A row on which [f]
    raises fails the frame (here where the column is defined; Spark reports it at
    the first action that evaluates the column). *)
Definition withColumn (name : string) (f : value -> result value) (src : string)
    (df : DataFrame) : result DataFrame :=
  i ← resolve src (df_columns df);
  vs ← eval_rows (fun r => f (cell i r)) (df_rows df);
  let put (r : list value) (v : value) : list value :=
    match positions name (df_columns df) with
    | [] => r ++ [v]
    | _ => (fun cx => if String.eqb cx.1 name then v else cx.2) <$> zip (df_columns df) r
    end in
  Ok (mkDataFrame
        (match positions name (df_columns df) with
         | [] => df_columns df ++ [name]
         | _ => df_columns df
         end)
        (zip_with put (df_rows df) vs)).

(** [l.join(r, l.a == r.b)], an inner join, with [li] and [ri] the positions of
    [a] in [l] and of [b] in [r]: every pair of rows that agree on the two cells,
    side by side. *)
Definition join (l r : DataFrame) (li ri : nat) : DataFrame :=
  mkDataFrame (df_columns l ++ df_columns r)
    (a ← df_rows l;
     b ← List.filter (fun b => sql_eq (cell li a) (cell ri b)) (df_rows r);
     [a ++ b]).

(** [df.drop(c)] for a column reference [c], the column at position [pos]. *)
Definition drop_column (pos : nat) (df : DataFrame) : DataFrame :=
  mkDataFrame (delete pos (df_columns df)) (delete pos <$> df_rows df).

(** A column function of [pyspark.sql.functions] on a cell of a timestamp
    column: the field of a timestamp, null on a null.  It never raises. *)
Definition timestamp_field (f : datetime -> Z) (v : value) : value :=
  match v with
  | Timestamp t => Int (f t)
  | _ => Null
  end.

Definition on_timestamp (f : datetime -> Z) (v : value) : result value :=
  Ok (timestamp_field f v).

(** ** The module's global names *)

(** What a global name can be bound to, as far as this program calls it. *)
Inductive pyobj :=
| TimeFn (f : datetime -> Z)       (* a column function on a timestamp column *)
| RowIdFn (ids : nat -> list Z)    (* a generator column: the ids of [n] rows *)
| Opaque.                          (* a module, a class, or another function *)

(** The names bound when a function of the module runs: those of the [import]
    lines 1 to 7, [config], and the four [def]s. *)
Definition module_globals : list (string * pyobj) :=
  [ ("configparser", Opaque); ("datetime", Opaque); ("os", Opaque);
    ("SparkSession", Opaque);
    ("udf", Opaque); ("col", Opaque);
    ("year", TimeFn year); ("month", TimeFn month);
    ("dayofmonth", TimeFn dayofmonth); ("hour", TimeFn hour);
    ("weekofyear", TimeFn weekofyear); ("date_format", Opaque);
    ("R", Opaque); ("Fld", Opaque); ("Dbl", Opaque); ("Str", Opaque);
    ("Int", Opaque); ("Date", Opaque); ("TimestampType", Opaque);
    ("config", Opaque);
    ("create_spark_session", Opaque); ("process_song_data", Opaque);
    ("process_log_data", Opaque); ("main", Opaque) ].

Fixpoint assoc (name : string) (env : list (string * pyobj)) : option pyobj :=
  match env with
  | [] => None
  | (n, o) :: env' => if String.eqb n name then Some o else assoc name env'
  end.

(** Reading a global name: a NameError when the module does not bind it. *)
Definition global (name : string) : result pyobj :=
  match assoc name module_globals with
  | Some o => Ok o
  | None => Err (NameError name)
  end.

(** Calling a global on a column, as in [hour("start_time")]. *)
Definition column_fn (name : string) : result (value -> result value) :=
  o ← global name;
  match o with
  | TimeFn f => Ok (on_timestamp f)
  | _ => Err (TypeError name)
  end.

(** Calling a generator column for a frame of [n] rows. *)
Definition row_ids (o : pyobj) (n : nat) : result (list value) :=
  match o with
  | RowIdFn ids => Ok (Int <$> ids n)
  | _ => Err (TypeError "generator column")
  end.

(** ** Storage, and a run as a state transformer that may raise *)

Inductive save_mode := ErrorIfExists | Overwrite.

(** What a write leaves under a path: the partition columns and the rows. *)
Record Table := mkTable {
  partition_by : list string;
  contents : DataFrame
}.

Definition M (A : Type) : Type :=
  gmap string Table -> gmap string Table * result A.

Global Instance M_ret : MRet M := fun _ a σ => (σ, Ok a).
Global Instance M_bind : MBind M := fun _ _ k m σ =>
  match m σ with
  | (σ', Ok a) => k a σ'
  | (σ', Err e) => (σ', Err e)
  end.

Definition lift {A : Type} (r : result A) : M A := fun σ => (σ, r).

(** The directory a glob reads from: the path up to its first wildcard. *)
Fixpoint glob_base (path : string) : string :=
  match path with
  | EmptyString => EmptyString
  | String c rest => if Ascii.eqb c "*" then EmptyString else String c (glob_base rest)
  end.

(** [spark.read.json(path)] and [spark.read.parquet(path)]: the table stored
    under the directory the glob reads from.  Partition discovery is not
    modelled: the frame comes back with all its columns, also through a glob
    that reaches the leaf files of a partitioned table, where Spark recovers no
    partition column.  No statement below rests on such a read. *)
Definition read (path : string) : M DataFrame := fun σ =>
  match σ !! glob_base path with
  | Some t => (σ, Ok (contents t))
  | None => (σ, Err (AnalysisException (PathDoesNotExist path)))
  end.

(** Reading with a declared schema: the frame has the schema's columns, a
    column the records lack is null, a column the schema lacks is left out.
    The declared types are not enforced here: a value that does not fit its
    declared type, which the reader would turn into a null, is taken as it is,
    so a statement about the values read assumes well-typed records. *)
Definition apply_schema (schema : list string) (raw : DataFrame) : DataFrame :=
  let pick (r : list value) (name : string) : value :=
    match resolve name (df_columns raw) with
    | Ok i => cell i r
    | Err _ => Null
    end in
  mkDataFrame schema ((fun r => pick r <$> schema) <$> df_rows raw).

Definition read_json_schema (path : string) (schema : list string) : M DataFrame :=
  raw ← read path; mret (apply_schema schema raw).

(** [df.write.partitionBy(cols).parquet(path, mode)].  The default mode raises
    when the path exists; the partition columns must be columns of the frame. *)
Definition write_parquet (df : DataFrame) (partitionBy : list string)
    (mode : save_mode) (path : string) : M unit := fun σ =>
  match List.find (fun c => negb (bool_decide (c ∈ df_columns df))) partitionBy with
  | Some c => (σ, Err (AnalysisException (PartitionColumnNotFound c)))
  | None =>
      match mode, σ !! path with
      | ErrorIfExists, Some _ => (σ, Err (AnalysisException (PathAlreadyExists path)))
      | _, _ => (<[path := mkTable partitionBy df]> σ, Ok tt)
      end
  end.

(** ** process_song_data *)

(** Lines 44 to 55: the declared schema of a song record (the column names; the
    declared types play no part in what follows). *)
Definition song_schema : list string :=
  [ "num_songs"; "artist_id"; "artist_latitude"; "artist_longitude";
    "artist_location"; "artist_name"; "song_id"; "title"; "duration"; "year" ].

(** Line 61 *)
Definition columns : list string :=
  [ "song_id"; "title"; "artist_id"; "year"; "duration" ].

(** Line 68 *)
Definition art_cols : list string :=
  [ "artist_id"; "artist_name as name"; "artist_location as location";
    "artist_lattitude as lattitude"; "artist_longitude as longitude" ].

(** Line 62 *)
Definition songs_table_of (df : DataFrame) : result DataFrame :=
  select columns df.

(** Line 69 *)
Definition artists_table_of (df : DataFrame) : result DataFrame :=
  t ← selectExpr art_cols df; Ok (dropDuplicates t).

(** Lines 28 to 72 *)
Definition process_song_data (input_data output_data : string) : M unit :=
  let song_data := input_data +:+ "song_data/*/*/*/*.json" in
  df ← read_json_schema song_data song_schema;
  songs_table ← lift (songs_table_of df);
  _ ← write_parquet songs_table ["year"; "artist_id"] ErrorIfExists (output_data +:+ "songs/");
  artists_table ← lift (artists_table_of df);
  write_parquet artists_table [] ErrorIfExists (output_data +:+ "artists/").

(** ** process_log_data *)

(** Line 93: the filter for song plays. *)
Definition song_plays (df : DataFrame) : result DataFrame :=
  page ← getattr df "page";
  Ok (filter_eq page (Str "NextPage") df).

(** Line 96 *)
Definition user_cols : list string :=
  [ "userdId AS user_id"; "firstName AS first_name"; "lastName AS last_name";
    "gender"; "level" ].

(** Line 97 *)
Definition user_table_of (df : DataFrame) : result DataFrame :=
  t ← selectExpr user_cols df; Ok (dropDuplicates t).

(** Line 103: the body of the UDF, [datetime.utcfromtimestamp(int(x)/1000)].
    [ts] is a column of JSON integers; on a null, [int] raises.  The quotient is
    Python 3's true division (line 1 imports [configparser], the Python 3 name
    of that module). *)
Definition get_datetime (x : value) : result value :=
  match x with
  | Int z => t ← utcfromtimestamp (inject_Z z / inject_Z 1000); Ok (Timestamp t)
  | _ => Err (TypeError "int() argument")
  end.

(** Lines 103 and 104 *)
Definition with_start_time (df : DataFrame) : result DataFrame :=
  _ ← global "udf";
  _ ← global "TimestampType";
  withColumn "start_time" get_datetime "ts" df.

(** Lines 107 to 112: the distinct start times and the five columns derived by
    functions the module imports. *)
Definition time_columns (df : DataFrame) : result DataFrame :=
  t ← select ["start_time"] df;
  let t := dropDuplicates t in
  f ← column_fn "hour"; t ← withColumn "hour" f "start_time" t;
  f ← column_fn "dayofmonth"; t ← withColumn "day" f "start_time" t;
  f ← column_fn "weekofyear"; t ← withColumn "week" f "start_time" t;
  f ← column_fn "month"; t ← withColumn "month" f "start_time" t;
  f ← column_fn "year"; withColumn "year" f "start_time" t.

(** Lines 107 to 114: the whole chain, with the weekday column of line 113 and
    the selection of line 114. *)
Definition time_table_of (df : DataFrame) : result DataFrame :=
  t ← time_columns df;
  f ← column_fn "dayofweek"; t ← withColumn "weekday" f "start_time" t;
  select [""] t.

(** [os.path.join(a, b)] for a relative [b]. *)
Definition path_join (a b : string) : string :=
  match String.get (String.length a - 1) a with
  | Some c => if Ascii.eqb c "/" then a +:+ b else a +:+ "/" +:+ b
  | None => b
  end.

(** Lines 125 to 127: the three inner joins, before the projection. *)
Definition fact_join (df df_songs df_artists time_table : DataFrame)
  : result DataFrame :=
  song ← getattr df "song";
  title ← getattr df_songs "title";
  let joined := join df df_songs song title in
  y ← getattr df_songs "year";
  let log_songs := drop_column (length (df_columns df) + y) joined in
  artist ← getattr log_songs "artist";
  name ← getattr df_artists "name";
  let log_song_artist := join log_songs df_artists artist name in
  l ← getattr log_song_artist "start_time";
  r ← getattr time_table "start_time";
  Ok (join log_song_artist time_table l r).

(** An argument of the final [select]: a generated column under an alias, or a
    column by name under an output name. *)
Inductive item :=
| Generated (ids : list value) (alias : string)
| Named (name alias : string).

Definition item_alias (it : item) : string :=
  match it with
  | Generated _ a => a
  | Named _ a => a
  end.

Definition resolve_item (cols : list string) (it : item)
  : result (nat -> list value -> value) :=
  match it with
  | Generated ids _ => Ok (fun k _ => default Null (ids !! k))
  | Named n _ => i ← resolve n cols; Ok (fun _ r => cell i r)
  end.

Fixpoint resolve_items (cols : list string) (its : list item)
  : result (list (nat -> list value -> value)) :=
  match its with
  | [] => Ok []
  | it :: its' =>
      f ← resolve_item cols it; fs ← resolve_items cols its'; Ok (f :: fs)
  end.

Definition select_items (its : list item) (df : DataFrame) : result DataFrame :=
  fs ← resolve_items (df_columns df) its;
  Ok (mkDataFrame (item_alias <$> its)
        (imap (fun k r => (fun f => f k r) <$> fs) (df_rows df))).

(** Lines 128 to 138: the projection, given what the name
    [monotonically_increasing_id] is bound to. *)
Definition songplays_select (gen : pyobj) (joined : DataFrame) : result DataFrame :=
  ids ← row_ids gen (length (df_rows joined));
  _ ← global "col";
  select_items
    [ Generated ids "songplay_id";
      Named "start_time" "start_time";
      Named "userId" "user_id";
      Named "level" "level";
      Named "song_id" "song_id";
      Named "artist_id" "artist_id";
      Named "sessionId" "session_id";
      Named "location" "location";
      Named "userAgent" "user_agent";
      Named "year" "year";
      Named "month" "month" ]
    joined.

(** Lines 125 to 138 *)
Definition songplays_table_of (df df_songs df_artists time_table : DataFrame)
  : result DataFrame :=
  joined ← fact_join df df_songs df_artists time_table;
  gen ← global "monotonically_increasing_id";
  songplays_select gen joined.

(** Lines 75 to 141 *)
Definition process_log_data (input_data output_data : string) : M unit :=
  let log_data := input_data +:+ "log_data/*/*/*.json" in
  df ← read log_data;
  df ← lift (song_plays df);
  user_table ← lift (user_table_of df);
  _ ← write_parquet user_table [] ErrorIfExists (output_data +:+ "users/");
  df ← lift (with_start_time df);
  time_table ← lift (time_table_of df);
  _ ← lift (global "os");
  _ ← write_parquet time_table ["year"; "month"] Overwrite (path_join output_data "time/");
  df_songs ← read (output_data +:+ "songs/*/*/*");
  df_artists ← read (output_data +:+ "artists/*");
  songplays_table ← lift (songplays_table_of df df_songs df_artists time_table);
  write_parquet songplays_table ["year"; "month"] ErrorIfExists (output_data +:+ "songplays/").

(** Lines 144 to 153 *)
Definition main : M unit :=
  let input_data := "s3a://udacity-dend/" in
  let output_data := "s3a://datalake-project-jin/output/" in
  _ ← process_song_data input_data output_data;
  process_log_data input_data output_data.

(** ** Concrete inputs *)

(** The columns of a Sparkify activity-log record, as the reader infers them. *)
Definition log_columns : list string :=
  [ "artist"; "firstName"; "gender"; "lastName"; "level"; "location"; "page";
    "sessionId"; "song"; "ts"; "userAgent"; "userId" ].

Definition play_event (page : string) (ts : Z) : list value :=
  [ Str "Mitch Ryder"; Str "Ann"; Str "F"; Str "Banks"; Str "free";
    Str "Salt Lake City, UT"; Str page; Int 95; Str "Jenny Take a Ride";
    Int ts; Str "Mozilla/5.0"; Int 10 ].

Definition help_event : list value :=
  [ Null; Str "Ann"; Str "F"; Str "Banks"; Str "free";
    Str "Salt Lake City, UT"; Str "Help"; Int 95; Null;
    Int 1541122000796; Str "Mozilla/5.0"; Int 10 ].

(** Two events of user 10: a playback (page NextSong) at 1541121934796 and
    a visit of the help page. *)
Definition scenario_B_log : DataFrame :=
  mkDataFrame log_columns [ play_event "NextSong" 1541121934796; help_event ].

(** The same two events, the first one tagged NextPage. *)
Definition next_page_log : DataFrame :=
  mkDataFrame log_columns [ play_event "NextPage" 1541121934796; help_event ].

(** One catalog record. *)
Definition catalog : DataFrame :=
  mkDataFrame song_schema
    [ [ Int 1; Str "AR1"; Dbl 0; Dbl 0; Str "Detroit"; Str "Mitch Ryder";
        Str "SO1"; Str "Jenny Take a Ride"; Dbl 7; Int 1966 ] ].

(** The input bucket holding that catalog and the two-event log, and nothing
    under the output root. *)
Definition store0 : gmap string Table :=
  <["s3a://udacity-dend/song_data/" := mkTable [] catalog]>
    (<["s3a://udacity-dend/log_data/" := mkTable [] scenario_B_log]> ∅).

(** The dimension frames the fact builder is written for: the songs table of
    line 62, an artists table under the output names of line 68, and the time
    columns of lines 107 to 112. *)
Definition songs_frame : DataFrame :=
  mkDataFrame columns
    [ [ Str "SO1"; Str "Jenny Take a Ride"; Str "AR1"; Int 1966; Dbl 7 ] ].

Definition artists_frame : DataFrame :=
  mkDataFrame [ "artist_id"; "name"; "location"; "lattitude"; "longitude" ]
    [ [ Str "AR1"; Str "Mitch Ryder"; Str "Detroit"; Dbl 0; Dbl 0 ] ].

Definition start_2018_11_02 : datetime := mkDatetime 2018 11 2 1 25 34 796000.

Definition events_frame : DataFrame :=
  mkDataFrame (log_columns ++ ["start_time"])
    [ play_event "NextPage" 1541121934796 ++ [Timestamp start_2018_11_02] ].

Definition time_frame : DataFrame :=
  mkDataFrame [ "start_time"; "hour"; "day"; "week"; "month"; "year" ]
    [ [ Timestamp start_2018_11_02; Int 1; Int 2; Int 44; Int 11; Int 2018 ] ].

(** ** Notions the statements use *)

(** A row of the time columns, from the one-cell row of its start time. *)
Definition time_row (r : list value) : list value :=
  let c := cell 0 r in
  [ c; timestamp_field hour c; timestamp_field dayofmonth c;
    timestamp_field weekofyear c; timestamp_field month c; timestamp_field year c ].

(** The time table's [year] and [month] are those of its [start_time]. *)
Definition time_derived (time_table : DataFrame) : Prop :=
  exists s y m,
    positions "start_time" (df_columns time_table) = [s]
    /\ positions "year" (df_columns time_table) = [y]
    /\ positions "month" (df_columns time_table) = [m]
    /\ forall r, r ∈ df_rows time_table ->
         cell y r = timestamp_field year (cell s r)
         /\ cell m r = timestamp_field month (cell s r).

(** In the joined frame the names [year] and [month] denote the time table's
    columns, [before] columns to the right of the other tables' columns, and in
    every row they hold the year and the month of the cell at [l], the event's
    start time. *)
Definition year_month_from_time (time_table joined : DataFrame) (l : nat) : Prop :=
  exists y m,
    resolve "year" (df_columns time_table) = Ok y
    /\ resolve "month" (df_columns time_table) = Ok m
    /\ let before := (length (df_columns joined) - length (df_columns time_table))%nat in
       resolve "year" (df_columns joined) = Ok (before + y)%nat
       /\ resolve "month" (df_columns joined) = Ok (before + m)%nat
       /\ forall r, r ∈ df_rows joined ->
            cell (before + y) r = timestamp_field year (cell l r)
            /\ cell (before + m) r = timestamp_field month (cell l r).

(** The three-way join of the concrete frames. *)
Definition joined_frame : DataFrame :=
  join
    (join (drop_column 16 (join events_frame songs_frame 8 1)) artists_frame 0 1)
    time_frame 12 0.

(** The start time line 103 derives from a cell of the [ts] column. *)
Definition start_time_of (v : value) : value :=
  match v with
  | Int z => Timestamp (datetime_at (z / 1000) (z mod 1000 * 1000))
  | _ => Null
  end.

(** Lines 45 to 54: the declared type of each field of a song record, in the
    order of [song_schema]. *)
Inductive sql_type := IntegerType | StringType | DoubleType.

Definition song_types : list sql_type :=
  [ IntegerType; StringType; DoubleType; DoubleType; StringType; StringType;
    StringType; StringType; DoubleType; IntegerType ].

(** A value that a field of the declared type holds as it was read: a null,
    or a value of that type. *)
Definition fits (ty : sql_type) (v : value) : bool :=
  match ty, v with
  | _, Null => true
  | IntegerType, Int _ => true
  | StringType, Str _ => true
  | DoubleType, Dbl _ => true
  | _, _ => false
  end.

(** A song record whose ten fields are of their declared types. *)
Definition well_typed_song (r : list value) : bool :=
  bool_decide (length r = length song_types)
  && forallb (fun tv => fits tv.1 tv.2) (zip song_types r).

(** Two catalog records with the same song id and different durations. *)
Definition scenario_A_catalog : DataFrame :=
  mkDataFrame song_schema
    [ [ Int 1; Str "AR1"; Dbl 0; Dbl 0; Str "Detroit"; Str "Mitch Ryder";
        Str "SO1"; Str "Jenny Take a Ride"; Dbl 7; Int 1966 ];
      [ Int 1; Str "AR1"; Dbl 0; Dbl 0; Str "Detroit"; Str "Mitch Ryder";
        Str "SO1"; Str "Jenny Take a Ride"; Dbl 8; Int 1966 ] ].

(** [p] holds of the [n] integers from [d] on. *)
Fixpoint all_from (n : nat) (d : Z) (p : Z -> bool) : bool :=
  match n with
  | O => true
  | S n' => p d && all_from n' (d + 1) p
  end.

(** The calendar date of a day number leads back to the day number. *)
Definition day_round_trip (d : Z) : bool :=
  let '(y, m, dd) := civil_from_days d in days_from_civil y m dd =? d.

(** A log that spells the user column the way line 96 does: two playbacks of
    one user tagged NextPage, at two levels, and a visit of the help page. *)
Definition misspelt_log : DataFrame :=
  mkDataFrame
    [ "firstName"; "gender"; "lastName"; "level"; "page"; "ts"; "userdId" ]
    [ [ Str "Ann"; Str "F"; Str "Banks"; Str "free"; Str "NextPage";
        Int 1541121934796; Int 10 ];
      [ Str "Ann"; Str "F"; Str "Banks"; Str "paid"; Str "NextPage";
        Int 1541121934999; Int 10 ];
      [ Str "Ann"; Str "F"; Str "Banks"; Str "paid"; Str "Help";
        Int 1541122000796; Int 10 ] ].

(** * Properties *)

(** ** Results *)

Lemma bind_Ok {A B : Type} (r : result A) (k : A -> result B) (b : B) :
  r ≫= k = Ok b -> exists a, r = Ok a /\ k a = Ok b.
Proof. destruct r as [a|e]; [eauto | discriminate]. Qed.

Ltac inv_bind H :=
  repeat match type of H with
  | _ ≫= _ = Ok _ =>
      let a := fresh "x" in
      let Ha := fresh "E" in
      apply bind_Ok in H as (a & Ha & H)
  end.

(** ** Column resolution *)

Lemma positions_from_app (i : nat) (name : string) (a b : list string) :
  positions_from i name (a ++ b)
  = positions_from i name a ++ positions_from (i + length a) name b.
Proof.
  revert i. induction a as [|c a IH]; intros i; simpl.
  - by rewrite Nat.add_0_r.
  - rewrite IH. replace (S i + length a)%nat with (i + S (length a))%nat by lia.
    by destruct (String.eqb c name).
Qed.

Lemma positions_from_nil (i : nat) (name : string) (cols : list string) :
  positions_from i name cols = [] <-> name ∉ cols.
Proof.
  revert i. induction cols as [|c cols IH]; intros i; simpl.
  - split; [intros _; apply not_elem_of_nil | done].
  - destruct (String.eqb_spec c name) as [->|Hne].
    + split; [discriminate | intros []; left].
    + rewrite IH, not_elem_of_cons. split; [intros H; split; [congruence | exact H] | intros [_ H]; exact H].
Qed.

Lemma positions_from_shift (i : nat) (name : string) (cols : list string) :
  positions_from i name cols = (fun j => (i + j)%nat) <$> positions name cols.
Proof.
  unfold positions. revert i. induction cols as [|c cols IH]; intros i; simpl; [done|].
  rewrite (IH (S i)), (IH 1%nat).
  destruct (String.eqb c name); simpl; rewrite <- list_fmap_compose;
    [f_equal; [lia|] |]; apply list_fmap_ext; intros; simpl; lia.
Qed.

Lemma positions_lookup (name : string) (cols : list string) (j : nat) :
  j ∈ positions name cols <-> cols !! j = Some name.
Proof.
  unfold positions. revert j. induction cols as [|c cols IH]; intros j; simpl.
  - rewrite elem_of_nil. done.
  - rewrite positions_from_shift.
    destruct (String.eqb_spec c name) as [->|Hne].
    + rewrite elem_of_cons, list_elem_of_fmap. destruct j as [|j]; simpl.
      * split; [intros _; reflexivity | intros _; by left].
      * rewrite <- IH. split.
        -- intros [?|(k & Hk & Hin)]; [lia|]. by simplify_eq/=.
        -- intros Hin. right. exists j. done.
    + rewrite list_elem_of_fmap. destruct j as [|j]; simpl.
      * split; [intros (k & Hk & _); lia | intros [=]; done].
      * rewrite <- IH. split.
        -- intros (k & Hk & Hin). by simplify_eq/=.
        -- intros Hin. exists j. done.
Qed.

Lemma resolve_Ok (name : string) (cols : list string) (i : nat) :
  resolve name cols = Ok i <-> positions name cols = [i].
Proof.
  unfold resolve. destruct (positions name cols) as [|j [|k l]]; split; intros H;
    by simplify_eq.
Qed.

Lemma getattr_Ok (df : DataFrame) (name : string) (i : nat) :
  getattr df name = Ok i -> positions name (df_columns df) = [i].
Proof.
  unfold getattr. case_bool_decide; [|discriminate]. apply resolve_Ok.
Qed.

Lemma positions_unique_lookup (name : string) (cols : list string) (i : nat) :
  positions name cols = [i] -> cols !! i = Some name.
Proof. intros H. apply positions_lookup. rewrite H. by left. Qed.

Lemma positions_app (name : string) (a b : list string) :
  positions name (a ++ b)
  = positions name a ++ ((fun j => (length a + j)%nat) <$> positions name b).
Proof.
  unfold positions at 1 2. rewrite positions_from_app. f_equal.
  apply positions_from_shift.
Qed.

Lemma positions_nil (name : string) (cols : list string) :
  positions name cols = [] <-> name ∉ cols.
Proof. apply positions_from_nil. Qed.

(** Dropping the one column that carries a name leaves no column of that name. *)
Lemma positions_delete_unique (name : string) (cols : list string) (i : nat) :
  positions name cols = [i] -> positions name (delete i cols) = [].
Proof.
  unfold positions. intros H.
  assert (Hgen : forall (cs : list string) (k j : nat),
             positions_from k name cs = [(k + j)%nat] ->
             name ∉ delete j cs).
  { clear. induction cs as [|c cs IH]; intros k j H; simpl in *; [discriminate|].
    destruct (String.eqb_spec c name) as [->|Hne].
    - injection H as Hk Hrest. assert (j = 0%nat) as -> by lia. simpl.
      by apply (positions_from_nil (S k)).
    - destruct j as [|j].
      + exfalso. rewrite positions_from_shift in H.
        destruct (positions name cs) as [|p ps]; [discriminate|].
        simpl in H. injection H as H _. lia.
      + simpl. rewrite not_elem_of_cons. split; [congruence|].
        apply (IH (S k) j). rewrite H. f_equal. lia. }
  apply positions_from_nil. by apply (Hgen cols 0%nat i).
Qed.

(** ** The page filter (line 93) *)

(** The rows that pass the filter are the rows whose page is NextPage. *)
Lemma song_plays_rows (df t : DataFrame) :
  song_plays df = Ok t ->
  exists page, getattr df "page" = Ok page
    /\ df_columns t = df_columns df
    /\ forall r, r ∈ df_rows t <-> r ∈ df_rows df /\ cell page r = Str "NextPage".
Proof.
  unfold song_plays. intros H. inv_bind H. injection H as <-.
  exists x. split; [done|]. split; [done|]. intros r. simpl.
  rewrite !list_elem_of_In, filter_In.
  unfold sql_eq. destruct (cell x r); simpl;
    rewrite ?bool_decide_eq_true; split; intros [? ?]; split; congruence.
Qed.

(** C1 (code defect).  The filter of line 93 compares the page with the
    string NextPage, not with the playback sentinel NextSong: the events that
    pass are exactly those whose page is NextPage.  Of the two events of
    scenario B (a NextSong playback and a Help visit) none is left, so the
    playback contributes to no table; and an event tagged NextPage, which is
    not the sentinel, passes the filter. *)
Theorem page_filter_tests_NextPage :
  (forall df t,
      song_plays df = Ok t ->
      exists page, getattr df "page" = Ok page
        /\ forall r, r ∈ df_rows t <-> r ∈ df_rows df /\ cell page r = Str "NextPage")
  /\ song_plays scenario_B_log = Ok (mkDataFrame log_columns [])
  /\ song_plays next_page_log
     = Ok (mkDataFrame log_columns [play_event "NextPage" 1541121934796]).
Proof.
  split; [|split; reflexivity].
  intros df t H. destruct (song_plays_rows df t H) as (page & Hp & _ & Hrows).
  exists page. split; assumption.
Qed.

(** ** The time table (lines 107 to 114) *)

Lemma column_fn_dayofweek : column_fn "dayofweek" = Err (NameError "dayofweek").
Proof. reflexivity. Qed.

(** C2 (code defect).  The time table is never built.  Line 113 calls
    [dayofweek], a name the module does not import, so whenever the five
    columns before it were derived the chain raises a NameError; and the
    selection of line 114 names the empty string, which is no column of the
    seven-column frame, so it would raise where the claim expects all seven
    columns to be kept. *)
Theorem time_table_of_raises :
  (forall df, exists e, time_table_of df = Err e)
  /\ (forall df t, time_columns df = Ok t ->
        time_table_of df = Err (NameError "dayofweek"))
  /\ (forall rows,
        select [""]
          (mkDataFrame
             ["start_time"; "hour"; "day"; "week"; "month"; "year"; "weekday"]
             rows)
        = Err (AnalysisException (CannotResolve ""))).
Proof.
  split; [|split].
  - intros df. unfold time_table_of.
    destruct (time_columns df) as [t|e]; [exists (NameError "dayofweek") | exists e];
      reflexivity.
  - intros df t H. unfold time_table_of. rewrite H. reflexivity.
  - intros rows. reflexivity.
Qed.

(** ** The artists table (lines 68 and 69) *)

Lemma songs_table_of_schema (raw : DataFrame) :
  songs_table_of (apply_schema song_schema raw)
  = Ok (mkDataFrame columns
          (project [6; 7; 1; 9; 8]%nat <$> df_rows (apply_schema song_schema raw))).
Proof. reflexivity. Qed.

(** What a run of [process_song_data] does, case by case: the catalog is
    missing; the songs path exists; or the songs table is written and line 69
    raises. *)
Lemma process_song_data_run (input_data output_data : string) (σ : gmap string Table) :
  process_song_data input_data output_data σ
  = match σ !! glob_base (input_data +:+ "song_data/*/*/*/*.json") with
    | None =>
        (σ, Err (AnalysisException
                   (PathDoesNotExist (input_data +:+ "song_data/*/*/*/*.json"))))
    | Some raw =>
        match σ !! (output_data +:+ "songs/") with
        | Some _ =>
            (σ, Err (AnalysisException (PathAlreadyExists (output_data +:+ "songs/"))))
        | None =>
            (<[output_data +:+ "songs/" :=
                 mkTable ["year"; "artist_id"]
                   (mkDataFrame columns
                      (project [6; 7; 1; 9; 8]%nat
                         <$> df_rows (apply_schema song_schema (contents raw))))]> σ,
             Err (AnalysisException (CannotResolve "artist_lattitude")))
        end
    end.
Proof.
  unfold process_song_data, read_json_schema, read, mbind, M_bind, mret, M_ret, lift.
  destruct (σ !! glob_base _) as [raw|]; [|reflexivity].
  rewrite songs_table_of_schema. unfold write_parquet. simpl List.find. cbv iota.
  destruct (σ !! (output_data +:+ "songs/")); reflexivity.
Qed.

Lemma main_run (σ : gmap string Table) :
  main σ
  = match process_song_data "s3a://udacity-dend/" "s3a://datalake-project-jin/output/" σ with
    | (σ', Ok _) =>
        process_log_data "s3a://udacity-dend/" "s3a://datalake-project-jin/output/" σ'
    | (σ', Err e) => (σ', Err e)
    end.
Proof. reflexivity. Qed.

(** C4 (code defect).  Line 68 asks for a column [artist_lattitude]; the
    declared schema of line 47 has [artist_latitude].  Whatever the catalog
    holds, the projection raises, and a run of [main] ends in an exception with
    no table written under [artists/]. *)
Theorem artists_table_of_raises :
  (forall raw,
      artists_table_of (apply_schema song_schema raw)
      = Err (AnalysisException (CannotResolve "artist_lattitude")))
  /\ (forall σ,
        (exists e, (main σ).2 = Err e)
        /\ (main σ).1 !! "s3a://datalake-project-jin/output/artists/"
           = σ !! "s3a://datalake-project-jin/output/artists/").
Proof.
  split; [reflexivity|].
  intros σ. rewrite main_run, process_song_data_run.
  destruct (σ !! glob_base _); [|simpl; eauto].
  destruct (σ !! (_ +:+ "songs/")); simpl; [eauto|].
  split; [eauto|]. by rewrite lookup_insert_ne.
Qed.

(** ** The users table (lines 96 and 97) *)

(** C5 (code defect).  Line 96 asks for a column [userdId]; a log record has
    [userId].  On every log with the Sparkify columns the projection raises, and
    on the two-event log of scenario B [process_log_data] ends there, with
    nothing written. *)
Theorem user_table_of_raises :
  (forall rows,
      user_table_of (mkDataFrame log_columns rows)
      = Err (AnalysisException (CannotResolve "userdId")))
  /\ process_log_data "s3a://udacity-dend/" "s3a://datalake-project-jin/output/" store0
     = (store0, Err (AnalysisException (CannotResolve "userdId"))).
Proof. split; [reflexivity|]. vm_compute. reflexivity. Qed.

(** ** Save modes and a second run *)

Lemma write_parquet_default_exists (df : DataFrame) (path : string)
    (σ : gmap string Table) (t : Table) :
  σ !! path = Some t ->
  write_parquet df [] ErrorIfExists path σ
  = (σ, Err (AnalysisException (PathAlreadyExists path))).
Proof. intros H. unfold write_parquet. simpl. by rewrite H. Qed.

Lemma write_parquet_overwrite (df : DataFrame) (path : string) (σ : gmap string Table) :
  write_parquet df [] Overwrite path σ = (<[path := mkTable [] df]> σ, Ok tt).
Proof. reflexivity. Qed.

(** C8 (code defect).  Only the write of line 117 passes [mode='overwrite'];
    the writes of lines 65, 72, 100 and 141 use the default mode, which raises
    when the path exists.  From a store that holds a catalog and no songs table,
    the first run writes [songs/] and raises at line 69; the second run over
    the same input raises at line 65, because [songs/] exists, and changes
    nothing. *)
Theorem rerun_raises_path_exists :
  forall (σ : gmap string Table) (raw : Table),
    σ !! "s3a://udacity-dend/song_data/" = Some raw ->
    σ !! "s3a://datalake-project-jin/output/songs/" = None ->
    (exists songs,
        main σ
        = (<["s3a://datalake-project-jin/output/songs/" := songs]> σ,
           Err (AnalysisException (CannotResolve "artist_lattitude"))))
    /\ main (main σ).1
       = ((main σ).1,
          Err (AnalysisException
                 (PathAlreadyExists "s3a://datalake-project-jin/output/songs/"))).
Proof.
  intros σ raw Hraw Hsongs.
  assert (Hfirst : exists songs,
             main σ
             = (<["s3a://datalake-project-jin/output/songs/" := songs]> σ,
                Err (AnalysisException (CannotResolve "artist_lattitude")))).
  { rewrite main_run, process_song_data_run.
    change (glob_base _) with "s3a://udacity-dend/song_data/".
    change (_ +:+ "songs/") with "s3a://datalake-project-jin/output/songs/".
    rewrite Hraw, Hsongs. eauto. }
  split; [exact Hfirst|].
  destruct Hfirst as (songs & ->). simpl.
  rewrite main_run, process_song_data_run.
  change (glob_base _) with "s3a://udacity-dend/song_data/".
  change (_ +:+ "songs/") with "s3a://datalake-project-jin/output/songs/".
  rewrite lookup_insert_ne by done. rewrite Hraw, lookup_insert_eq. reflexivity.
Qed.

Lemma rerun_raises_path_exists_witness :
  (exists songs,
      main store0
      = (<["s3a://datalake-project-jin/output/songs/" := songs]> store0,
         Err (AnalysisException (CannotResolve "artist_lattitude"))))
  /\ main (main store0).1
     = ((main store0).1,
        Err (AnalysisException
               (PathAlreadyExists "s3a://datalake-project-jin/output/songs/"))).
Proof.
  apply (rerun_raises_path_exists store0 (mkTable [] catalog)); reflexivity.
Defined.

(** ** The start time (lines 103 and 104) *)

Lemma round_half_even_comp (p q : Q) :
  (p == q)%Q -> round_half_even p = round_half_even q.
Proof.
  intros H. unfold round_half_even. rewrite (Qfloor_comp _ _ H).
  assert (Hc : (p - inject_Z (Qfloor q) ?= 1 # 2)%Q = (q - inject_Z (Qfloor q) ?= 1 # 2)%Q).
  { apply Qcompare_comp; [|reflexivity]. rewrite H. reflexivity. }
  rewrite Hc. reflexivity.
Qed.

Lemma round_half_even_inject_Z (z : Z) : round_half_even (inject_Z z) = z.
Proof.
  unfold round_half_even. rewrite Qfloor_Z.
  assert (Hc : (inject_Z z - inject_Z z ?= 1 # 2)%Q = Lt).
  { apply Qlt_alt. assert (He : (inject_Z z - inject_Z z == 0)%Q) by ring.
    rewrite He. reflexivity. }
  rewrite Hc. reflexivity.
Qed.

Lemma millis_floor (ts : Z) : Qfloor (inject_Z ts / inject_Z 1000) = ts / 1000.
Proof.
  assert (He : (inject_Z ts / inject_Z 1000 == ts # 1000)%Q)
    by (symmetry; apply Qmake_Qdiv).
  rewrite (Qfloor_comp _ _ He). reflexivity.
Qed.

Lemma millis_fraction (ts : Z) :
  ((inject_Z ts / inject_Z 1000 - inject_Z (ts / 1000)) * inject_Z 1000000
   == inject_Z (ts mod 1000 * 1000))%Q.
Proof.
  assert (He : (inject_Z ts / inject_Z 1000 == ts # 1000)%Q)
    by (symmetry; apply Qmake_Qdiv).
  rewrite He. rewrite (Z.mod_eq ts 1000) by lia.
  unfold Qeq, Qminus, Qplus, Qmult, Qopp, inject_Z. simpl Qnum. simpl Qden.
  change (Z.pos (1000 * 1 * 1)) with 1000. lia.
Qed.

(** Through early 2106 the calendar year is one Python accepts. *)
Lemma civil_year_range (days : Z) :
  0 <= days < 49711 ->
  1 <= (civil_from_days days).1.1 <= 9999.
Proof.
  intros H. unfold civil_from_days. cbv zeta.
  repeat match goal with
         | |- context [if ?b then _ else _] => destruct b
         end; cbn [fst]; Z.to_euclidean_division_equations; lia.
Qed.

Lemma datetime_at_year (secs us : Z) :
  dt_year (datetime_at secs us) = (civil_from_days (secs / 86400)).1.1.
Proof.
  unfold datetime_at. by destruct (civil_from_days (secs / 86400)) as [[y m] d].
Qed.

Lemma datetime_at_hour (secs us : Z) :
  hour (datetime_at secs us) = secs mod 86400 / 3600.
Proof.
  unfold datetime_at. by destruct (civil_from_days (secs / 86400)) as [[y m] d].
Qed.

Lemma datetime_at_microsecond (secs us : Z) :
  dt_microsecond (datetime_at secs us) = us.
Proof.
  unfold datetime_at. by destruct (civil_from_days (secs / 86400)) as [[y m] d].
Qed.

(** C3 (amended).  The derived start time of an event keeps the milliseconds:
    for a timestamp [ts] in epoch milliseconds (from 1970 to early 2106) it is
    the UTC datetime of the whole second [ts / 1000] with
    [(ts mod 1000) * 1000] microseconds, and its hour is the UTC hour of the
    day, [(ts / 3600000) mod 24]. *)
Theorem get_datetime_keeps_milliseconds :
  forall ts : Z,
    0 <= ts < 4294967296000 ->
    get_datetime (Int ts)
    = Ok (Timestamp (datetime_at (ts / 1000) (ts mod 1000 * 1000)))
    /\ dt_microsecond (datetime_at (ts / 1000) (ts mod 1000 * 1000))
       = ts mod 1000 * 1000
    /\ hour (datetime_at (ts / 1000) (ts mod 1000 * 1000)) = ts / 3600000 mod 24.
Proof.
  intros ts Hts. split; [|split].
  - unfold get_datetime, utcfromtimestamp.
    rewrite millis_floor, (round_half_even_comp _ _ (millis_fraction ts)),
      round_half_even_inject_Z.
    assert (Hus : (1000000 <=? ts mod 1000 * 1000) = false)
      by (apply Z.leb_gt; Z.to_euclidean_division_equations; lia).
    rewrite Hus. cbv zeta. rewrite datetime_at_year.
    pose proof (civil_year_range (ts / 1000 / 86400)) as Hy.
    assert (Hd : 0 <= ts / 1000 / 86400 < 49711)
      by (Z.to_euclidean_division_equations; lia).
    specialize (Hy Hd).
    assert (Hr : (1 <=? (civil_from_days (ts / 1000 / 86400)).1.1)
                 && ((civil_from_days (ts / 1000 / 86400)).1.1 <=? 9999) = true).
    { apply andb_true_iff. split; apply Z.leb_le; lia. }
    rewrite Hr. reflexivity.
  - apply datetime_at_microsecond.
  - rewrite datetime_at_hour. Z.to_euclidean_division_equations. lia.
Qed.

Lemma get_datetime_keeps_milliseconds_witness :
  get_datetime (Int 1541121934796)
  = Ok (Timestamp (mkDatetime 2018 11 2 1 25 34 796000))
  /\ hour (mkDatetime 2018 11 2 1 25 34 796000) = 1.
Proof.
  assert (H : 0 <= 1541121934796 < 4294967296000) by lia.
  destruct (get_datetime_keeps_milliseconds 1541121934796 H) as (Hd & _ & Hh).
  split; [exact Hd | exact Hh].
Defined.

(** C3 as stated fails at its own example: the start time derived from
    1541121934796 is 2018-11-02 01:25:34.796 UTC.  It is not the datetime of
    the whole second 1541121934 with the milliseconds discarded, and its hour
    is 1, not 9. *)
Lemma start_time_1541121934796 :
  exists t : datetime,
    get_datetime (Int 1541121934796) = Ok (Timestamp t)
    /\ t = mkDatetime 2018 11 2 1 25 34 796000
    /\ t <> datetime_at (1541121934796 / 1000) 0
    /\ hour t <> 9.
Proof.
  exists (mkDatetime 2018 11 2 1 25 34 796000).
  split; [vm_compute; reflexivity|]. split; [reflexivity|]. split.
  - intros H. vm_compute in H. discriminate H.
  - intros H. vm_compute in H. discriminate H.
Qed.

(** ** Deduplication (lines 69, 97 and 107) *)

Lemma dropDuplicates_NoDup (df : DataFrame) : NoDup (df_rows (dropDuplicates df)).
Proof. apply NoDup_remove_dups. Qed.

Lemma dropDuplicates_rows (df : DataFrame) (r : list value) :
  r ∈ df_rows (dropDuplicates df) <-> r ∈ df_rows df.
Proof. apply elem_of_remove_dups. Qed.

Lemma eval_rows_total (g : list value -> value) (rs : list (list value)) :
  eval_rows (fun r => Ok (g r)) rs = Ok (g <$> rs).
Proof. induction rs as [|r rs IH]; simpl; [done|]. rewrite IH. reflexivity. Qed.

Lemma zip_with_fmap_same {A B C : Type} (f : A -> B -> C) (g : A -> B) (l : list A) :
  zip_with f l (g <$> l) = (fun a => f a (g a)) <$> l.
Proof. induction l as [|a l IH]; simpl; [done|]. f_equal. exact IH. Qed.

(** A column function of a new name appends its column. *)
Lemma withColumn_fresh (name src : string) (g : datetime -> Z) (df : DataFrame) (i : nat) :
  resolve src (df_columns df) = Ok i ->
  positions name (df_columns df) = [] ->
  withColumn name (on_timestamp g) src df
  = Ok (mkDataFrame (df_columns df ++ [name])
          ((fun r => r ++ [timestamp_field g (cell i r)]) <$> df_rows df)).
Proof.
  intros Hi Hn. unfold withColumn. rewrite Hi. cbn [mbind result_bind].
  unfold on_timestamp. rewrite eval_rows_total. cbn [mbind result_bind].
  cbv zeta. rewrite Hn, zip_with_fmap_same. reflexivity.
Qed.

(** Lines 107 to 112 succeed on every frame with one [start_time] column, and
    yield one row per distinct start time. *)
Lemma time_columns_Ok (df t : DataFrame) :
  time_columns df = Ok t <->
  exists i, resolve "start_time" (df_columns df) = Ok i
    /\ t = mkDataFrame ["start_time"; "hour"; "day"; "week"; "month"; "year"]
            (time_row <$> remove_dups (project [i] <$> df_rows df)).
Proof.
  unfold time_columns, select. cbn [resolve_all].
  destruct (resolve "start_time" (df_columns df)) as [i|e] eqn:Hi; cbn [mbind result_bind].
  2: { split; [discriminate | intros (j & [=] & _)]. }
  change (column_fn "hour") with (Ok (on_timestamp hour)).
  change (column_fn "dayofmonth") with (Ok (on_timestamp dayofmonth)).
  change (column_fn "weekofyear") with (Ok (on_timestamp weekofyear)).
  change (column_fn "month") with (Ok (on_timestamp month)).
  change (column_fn "year") with (Ok (on_timestamp year)).
  cbn [mbind result_bind].
  rewrite (withColumn_fresh "hour" "start_time" hour _ 0%nat) by reflexivity.
  cbn [mbind result_bind].
  rewrite (withColumn_fresh "day" "start_time" dayofmonth _ 0%nat) by reflexivity.
  cbn [mbind result_bind].
  rewrite (withColumn_fresh "week" "start_time" weekofyear _ 0%nat) by reflexivity.
  cbn [mbind result_bind].
  rewrite (withColumn_fresh "month" "start_time" month _ 0%nat) by reflexivity.
  cbn [mbind result_bind].
  rewrite (withColumn_fresh "year" "start_time" year _ 0%nat) by reflexivity.
  cbn [df_rows df_columns dropDuplicates app].
  rewrite <- !list_fmap_compose.
  match goal with
  | |- context [?f <$> remove_dups ?l] =>
      assert (Hrows : f <$> remove_dups l = time_row <$> remove_dups l)
  end.
  { apply Forall_fmap_ext_1, Forall_forall. intros r Hr.
    apply elem_of_remove_dups, list_elem_of_fmap in Hr as (r' & -> & _).
    reflexivity. }
  rewrite Hrows. split.
  - intros [= <-]. eauto.
  - intros (j & [= <-] & ->). reflexivity.
Qed.

Lemma time_row_inj (c c' : value) : time_row [c] = time_row [c'] -> c = c'.
Proof. unfold time_row. simpl. intros H. by injection H. Qed.

Lemma time_columns_NoDup (df t : DataFrame) :
  time_columns df = Ok t -> NoDup (df_rows t).
Proof.
  intros (i & _ & ->)%time_columns_Ok. cbn [df_rows].
  apply NoDup_fmap_2_strong; [|apply NoDup_remove_dups].
  intros x y Hx Hy Heq.
  apply elem_of_remove_dups, list_elem_of_fmap in Hx as (x' & -> & _).
  apply elem_of_remove_dups, list_elem_of_fmap in Hy as (y' & -> & _).
  apply time_row_inj in Heq. unfold project. simpl. by rewrite Heq.
Qed.

(** C7.  After the deduplication step no two rows of a dimension frame are
    equal in every column: [dropDuplicates] leaves pairwise distinct rows in
    whatever frame it is given, so the artists frame of line 69 and the users
    frame of line 97, when the projection before them yields one, have none;
    and the time columns of lines 107 to 112, derived from the deduplicated
    start times, have none either. *)
Theorem dimension_rows_distinct :
  (forall df, NoDup (df_rows (dropDuplicates df)))
  /\ (forall df t, artists_table_of df = Ok t -> NoDup (df_rows t))
  /\ (forall df t, user_table_of df = Ok t -> NoDup (df_rows t))
  /\ (forall df t, time_columns df = Ok t -> NoDup (df_rows t)).
Proof.
  split; [exact dropDuplicates_NoDup|]. split; [|split].
  - intros df t H. unfold artists_table_of in H. inv_bind H. injection H as <-.
    apply dropDuplicates_NoDup.
  - intros df t H. unfold user_table_of in H. inv_bind H. injection H as <-.
    apply dropDuplicates_NoDup.
  - exact time_columns_NoDup.
Qed.

(** The time columns of a log with a repeated start time: one row for it. *)
Example time_columns_repeated_start :
  time_columns
    (mkDataFrame ["start_time"]
       [ [Timestamp start_2018_11_02]; [Timestamp start_2018_11_02] ])
  = Ok time_frame.
Proof. reflexivity. Qed.

(** A log that spells the user column the way line 96 does: its two equal
    user rows are collapsed. *)
Example user_table_of_collapses :
  user_table_of
    (mkDataFrame ["userdId"; "firstName"; "lastName"; "gender"; "level"]
       [ [Int 10; Str "Ann"; Str "Banks"; Str "F"; Str "free"];
         [Int 10; Str "Ann"; Str "Banks"; Str "F"; Str "free"];
         [Int 10; Str "Ann"; Str "Banks"; Str "F"; Str "paid"] ])
  = Ok (mkDataFrame ["user_id"; "first_name"; "last_name"; "gender"; "level"]
          [ [Int 10; Str "Ann"; Str "Banks"; Str "F"; Str "free"];
            [Int 10; Str "Ann"; Str "Banks"; Str "F"; Str "paid"] ]).
Proof. reflexivity. Qed.

(** ** The fact builder (lines 125 to 138) *)

Lemma cell_app_l (a b : list value) (i : nat) :
  (i < length a)%nat -> cell i (a ++ b) = cell i a.
Proof. intros H. unfold cell. by rewrite lookup_app_l. Qed.

Lemma cell_app_r (a b : list value) (i : nat) :
  cell (length a + i) (a ++ b) = cell i b.
Proof.
  unfold cell. rewrite lookup_app_r by lia. f_equal. f_equal. lia.
Qed.

Lemma sql_eq_true (a b : value) : sql_eq a b = true -> a = b.
Proof.
  unfold sql_eq. destruct a, b; try discriminate; apply bool_decide_eq_true.
Qed.

(** A row of an inner join is a row of the left frame next to a row of the
    right frame that agrees with it on the join cells. *)
Lemma join_rows (l r : DataFrame) (li ri : nat) (x : list value) :
  x ∈ df_rows (join l r li ri) <->
  exists a b, a ∈ df_rows l /\ b ∈ df_rows r
    /\ sql_eq (cell li a) (cell ri b) = true /\ x = a ++ b.
Proof.
  unfold join. cbn [df_rows]. rewrite list_elem_of_bind. split.
  - intros (a & Hx & Ha). apply list_elem_of_bind in Hx as (b & Hx & Hb).
    apply list_elem_of_singleton in Hx as ->.
    apply list_elem_of_In, filter_In in Hb as [Hb Heq].
    apply list_elem_of_In in Hb. by exists a, b.
  - intros (a & b & Ha & Hb & Heq & ->). exists a. split; [|done].
    apply list_elem_of_bind. exists b. split; [by apply list_elem_of_singleton|].
    apply list_elem_of_In, filter_In. by rewrite <- list_elem_of_In.
Qed.

Lemma join_well_formed (l r : DataFrame) (li ri : nat) :
  well_formed l -> well_formed r -> well_formed (join l r li ri).
Proof.
  unfold well_formed. rewrite !Forall_forall. intros Hl Hr x Hx.
  apply join_rows in Hx as (a & b & Ha & Hb & _ & ->).
  cbn [join df_columns]. rewrite !length_app. by rewrite (Hl a), (Hr b).
Qed.

Lemma delete_out_of_range {A : Type} (l : list A) (i : nat) :
  (length l <= i)%nat -> delete i l = l.
Proof.
  revert i. induction l as [|x l IH]; intros [|i] H; simpl in *; try done; [lia|].
  f_equal. apply IH. lia.
Qed.

Lemma delete_app_right {A : Type} (a b : list A) (i : nat) :
  delete (length a + i)%nat (a ++ b) = a ++ delete i b.
Proof. induction a as [|x a IH]; simpl; [done|]. f_equal. exact IH. Qed.

Lemma drop_column_well_formed (pos : nat) (df : DataFrame) :
  well_formed df -> well_formed (drop_column pos df).
Proof.
  unfold well_formed, drop_column. cbn [df_rows df_columns].
  intros H. rewrite Forall_fmap. eapply Forall_impl; [exact H|].
  intros r Hr. simpl in *.
  destruct (decide (pos < length r)%nat).
  - rewrite (length_delete r), (length_delete (df_columns df));
      [lia | apply lookup_lt_is_Some_2; lia | apply lookup_lt_is_Some_2; lia].
  - rewrite !delete_out_of_range by lia. done.
Qed.

Lemma not_elem_of_delete (name : string) (cols : list string) (i : nat) :
  name ∉ cols -> name ∉ delete i cols.
Proof. intros H Hin. apply H. by eapply list_elem_of_delete_inv. Qed.

Lemma positions_lt (name : string) (cols : list string) (i : nat) :
  positions name cols = [i] -> (i < length cols)%nat.
Proof. intros H. eapply lookup_lt_Some, positions_unique_lookup, H. Qed.

(** The time columns of lines 107 to 112 carry the year and month of their
    start time. *)
Lemma time_columns_derived (df t : DataFrame) :
  time_columns df = Ok t -> time_derived t.
Proof.
  intros (i & _ & ->)%time_columns_Ok. exists 0%nat, 5%nat, 4%nat.
  repeat split; intros;
    match goal with
    | H : _ ∈ df_rows _ |- _ => cbn [df_rows] in H; apply list_elem_of_fmap in H as (? & -> & _)
    end; reflexivity.
Qed.

Create HintDb frames.
#[local] Hint Resolve join_well_formed drop_column_well_formed : frames.

Section FactBuilder.

Variables df df_songs df_artists time_table joined : DataFrame.

(** The three joins of lines 125 to 127 went through. *)
Hypothesis joins_succeed :
  fact_join df df_songs df_artists time_table = Ok joined.

(** The frame the joins build: the join positions and the nesting. *)
Lemma fact_join_Ok :
  exists song title y artist name l r,
    getattr df "song" = Ok song
    /\ getattr df_songs "title" = Ok title
    /\ getattr df_songs "year" = Ok y
    /\ getattr df_artists "name" = Ok name
    /\ getattr time_table "start_time" = Ok r
    /\ let log_songs :=
         drop_column (length (df_columns df) + y) (join df df_songs song title) in
       let log_song_artist := join log_songs df_artists artist name in
       getattr log_songs "artist" = Ok artist
       /\ getattr log_song_artist "start_time" = Ok l
       /\ joined = join log_song_artist time_table l r.
Proof.
  pose proof joins_succeed as H. unfold fact_join in H. inv_bind H.
  injection H as <-.
  exists x, x0, x1, x2, x3, x4, x5. repeat split; assumption.
Qed.

(** C9 (code defect).  Line 128 calls [monotonically_increasing_id], a name the
    module does not import: whenever the three joins succeed, building the fact
    table raises a NameError, so no surrogate key is ever assigned. *)
Theorem songplays_table_of_raises :
  songplays_table_of df df_songs df_artists time_table
  = Err (NameError "monotonically_increasing_id").
Proof. unfold songplays_table_of. rewrite joins_succeed. reflexivity. Qed.

(** The projection of lines 128 to 138 on the joined frame.  After the third
    join the frame has two columns called [start_time], the event's and the
    time table's, so [col("start_time")] is an ambiguous reference: with any
    generator bound to [monotonically_increasing_id], the projection raises
    whenever the three joins succeed. *)
Theorem songplays_select_ambiguous :
  forall ids : nat -> list Z,
    songplays_select (RowIdFn ids) joined
    = Err (AnalysisException (AmbiguousReference "start_time")).
Proof.
  intros ids.
  destruct fact_join_Ok
    as (song & title & y & artist & name & l & r & _ & _ & _ & _ & Hr & _ & Hl & ->).
  apply getattr_Ok in Hr, Hl.
  match goal with
  | |- songplays_select _ ?j = _ =>
      assert (Hres : resolve "start_time" (df_columns j)
                     = Err (AnalysisException (AmbiguousReference "start_time")))
  end.
  { unfold resolve. cbn [join df_columns] in *. rewrite positions_app, Hl, Hr. reflexivity. }
  unfold songplays_select, select_items. cbn [row_ids mbind result_bind].
  change (global "col") with (Ok Opaque).
  cbn [mbind result_bind resolve_items resolve_item].
  rewrite Hres. reflexivity.
Qed.

(** Referential soundness of the three joins: a row of the joined frame is an
    event row, a songs row without its [year] cell, an artists row and a time
    row, side by side.  Every cell of the dimension part of a joined row is
    thus the cell of an existing dimension row. *)
Theorem fact_join_rows_sound :
  well_formed df ->
  forall x, x ∈ df_rows joined ->
    exists e s a t y,
      e ∈ df_rows df /\ s ∈ df_rows df_songs /\ a ∈ df_rows df_artists
      /\ t ∈ df_rows time_table
      /\ getattr df_songs "year" = Ok y
      /\ x = ((e ++ delete y s) ++ a) ++ t.
Proof.
  intros Hwf x Hx.
  destruct fact_join_Ok
    as (song & title & y & artist & name & l & r & _ & _ & Hy & _ & _ & _ & _ & ->).
  apply join_rows in Hx as (ea & t & Hea & Ht & _ & ->).
  apply join_rows in Hea as (es & a & Hes & Ha & _ & ->).
  cbn [drop_column df_rows] in Hes.
  apply list_elem_of_fmap in Hes as (es' & -> & Hes).
  apply join_rows in Hes as (e & s & He & Hs & _ & ->).
  exists e, s, a, t, y. repeat split; try done.
  unfold well_formed in Hwf. rewrite Forall_forall in Hwf.
  cbn [join df_columns]. rewrite <- (Hwf e He), delete_app_right. reflexivity.
Qed.

(** C10.  In the frame the three joins build, the names [year] and [month]
    denote the time table's columns and nothing else: the catalog's [year] was
    dropped at line 125, so it is not among the columns, and in every row the
    two cells are the year and the month of that event's start time.  (Stated
    for a log without columns of these names and dimension tables that have no
    [month], resp. no [year] and [month], of their own, as the songs and artists
    tables do.) *)
Theorem fact_year_month_from_time :
  forall l : nat,
    well_formed df -> well_formed df_songs -> well_formed df_artists ->
    resolve "start_time" (df_columns df) = Ok l ->
    "year" ∉ df_columns df -> "month" ∉ df_columns df ->
    "month" ∉ df_columns df_songs ->
    "year" ∉ df_columns df_artists -> "month" ∉ df_columns df_artists ->
    time_derived time_table ->
    year_month_from_time time_table joined l.
Proof.
  intros l Hwf Hwfs Hwfa Hl Hy Hm Hms Hya Hma (s & y & m & Hs & Hyt & Hmt & Hrows).
  destruct fact_join_Ok
    as (song & title & ys & artist & name & l' & r & _ & _ & Hys & _ & Hr & _ & Hl' & ->).
  apply getattr_Ok in Hys, Hr, Hl'. apply resolve_Ok in Hl.
  set (log_songs := drop_column (length (df_columns df) + ys)
                      (join df df_songs song title)) in *.
  set (lsa := join log_songs df_artists artist name) in *.
  assert (Hcols : df_columns lsa
                  = (df_columns df ++ delete ys (df_columns df_songs))
                      ++ df_columns df_artists).
  { unfold lsa, log_songs. cbn [join drop_column df_columns].
    by rewrite delete_app_right. }
  assert (Hwfl : well_formed lsa) by (unfold lsa, log_songs; auto with frames).
  assert (r = s) as -> by congruence.
  assert (l' = l) as ->.
  { rewrite Hcols, !positions_app, Hl in Hl'. by injection Hl'. }
  unfold year_month_from_time. exists y, m.
  split; [by apply resolve_Ok|]. split; [by apply resolve_Ok|].
  cbn [join df_columns]. rewrite length_app.
  replace (length (df_columns lsa) + length (df_columns time_table)
           - length (df_columns time_table))%nat
    with (length (df_columns lsa)) by lia.
  cbv zeta. split; [|split].
  - apply resolve_Ok. rewrite positions_app, Hyt, Hcols, !positions_app.
    rewrite (proj2 (positions_nil _ _) Hy), (proj2 (positions_nil _ _) Hya),
      (positions_delete_unique _ _ _ Hys). reflexivity.
  - apply resolve_Ok. rewrite positions_app, Hmt, Hcols, !positions_app.
    rewrite (proj2 (positions_nil _ _) Hm), (proj2 (positions_nil _ _) Hma),
      (proj2 (positions_nil _ _) (not_elem_of_delete _ _ ys Hms)). reflexivity.
  - intros x Hx. apply join_rows in Hx as (a & b & Ha & Hb & Heq & ->).
    apply sql_eq_true in Heq.
    assert (Hlen : length a = length (df_columns lsa)).
    { unfold well_formed in Hwfl. rewrite Forall_forall in Hwfl. by apply Hwfl. }
    assert (Hlt : (l < length a)%nat).
    { rewrite Hlen, Hcols, !length_app. apply positions_lt in Hl. lia. }
    rewrite <- Hlen, !cell_app_r, (cell_app_l a b l Hlt), Heq.
    by apply Hrows.
Qed.

End FactBuilder.

(** *** The fact builder on the concrete frames *)

(** The frames of the example are what the code derives: the events frame
    from the NextPage log by lines 93 and 104, the songs frame from the
    catalog by line 62, the time frame by lines 107 to 112. *)
Example events_frame_derived :
  (df ← song_plays next_page_log; with_start_time df) = Ok events_frame
  /\ songs_table_of catalog = Ok songs_frame
  /\ time_columns events_frame = Ok time_frame.
Proof. repeat split; vm_compute; reflexivity. Qed.

Lemma joined_frame_Ok :
  fact_join events_frame songs_frame artists_frame time_frame = Ok joined_frame.
Proof. reflexivity. Qed.

Lemma songplays_table_of_raises_witness :
  songplays_table_of events_frame songs_frame artists_frame time_frame
  = Err (NameError "monotonically_increasing_id").
Proof.
  apply (songplays_table_of_raises events_frame songs_frame artists_frame
           time_frame joined_frame).
  reflexivity.
Defined.

Lemma songplays_select_ambiguous_witness :
  songplays_select (RowIdFn (fun n => Z.of_nat <$> seq 0 n)) joined_frame
  = Err (AnalysisException (AmbiguousReference "start_time")).
Proof.
  apply (songplays_select_ambiguous events_frame songs_frame artists_frame
           time_frame joined_frame).
  reflexivity.
Defined.

(** On these frames, where the songs frame carries its [artist_id] column,
    the references to [artist_id] and [location] are ambiguous as well;
    [song_id] is not. *)
Example projection_other_ambiguities :
  resolve "artist_id" (df_columns joined_frame)
  = Err (AnalysisException (AmbiguousReference "artist_id"))
  /\ resolve "location" (df_columns joined_frame)
     = Err (AnalysisException (AmbiguousReference "location"))
  /\ resolve "song_id" (df_columns joined_frame) = Ok 13%nat.
Proof. repeat split. Qed.

Lemma fact_join_rows_sound_witness :
  Forall
    (fun x =>
       exists e s a t y,
         e ∈ df_rows events_frame /\ s ∈ df_rows songs_frame
         /\ a ∈ df_rows artists_frame /\ t ∈ df_rows time_frame
         /\ getattr songs_frame "year" = Ok y
         /\ x = ((e ++ delete y s) ++ a) ++ t)
    (df_rows joined_frame).
Proof.
  apply Forall_forall.
  apply (fact_join_rows_sound events_frame songs_frame artists_frame time_frame
           joined_frame).
  - reflexivity.
  - repeat constructor.
Defined.

Lemma fact_year_month_from_time_witness :
  year_month_from_time time_frame joined_frame 12.
Proof.
  apply (fact_year_month_from_time events_frame songs_frame artists_frame
           time_frame joined_frame).
  - reflexivity.
  - repeat constructor.
  - repeat constructor.
  - repeat constructor.
  - reflexivity.
  - apply positions_nil. reflexivity.
  - apply positions_nil. reflexivity.
  - apply positions_nil. reflexivity.
  - apply positions_nil. reflexivity.
  - apply positions_nil. reflexivity.
  - apply (time_columns_derived _ _ time_columns_repeated_start).
Defined.

(** In the one row of the example the year is 2018, the year of the start
    time, and not 1966, the year of the song. *)
Example joined_frame_year :
  resolve "year" (df_columns joined_frame) = Ok 27%nat
  /\ (cell 27 <$> df_rows joined_frame) = [Int 2018]
  /\ (cell 3 <$> df_rows songs_frame) = [Int 1966].
Proof. repeat split. Qed.

(** ** The keys of a joined row (lines 125 to 127) *)

Lemma lookup_delete_other {A : Type} (xs : list A) (y i : nat) :
  i <> y ->
  delete y xs !! (if decide (i < y)%nat then i else pred i) = xs !! i.
Proof.
  intros Hne. case_decide.
  - by apply list_lookup_delete_lt.
  - rewrite list_lookup_delete_ge by lia. f_equal. lia.
Qed.

Lemma lookup_app_plus {A : Type} (xs ys : list A) (i : nat) :
  (xs ++ ys) !! (length xs + i)%nat = ys !! i.
Proof. rewrite lookup_app_r by lia. f_equal. lia. Qed.

Lemma length_delete_same {A B : Type} (xs : list A) (ys : list B) (y : nat) :
  length xs = length ys -> length (delete y xs) = length (delete y ys).
Proof.
  intros H. destruct (decide (y < length xs)%nat).
  - rewrite !length_delete by (apply lookup_lt_is_Some_2; lia). lia.
  - rewrite !delete_out_of_range by lia. done.
Qed.

(** A joined row, split into the row of the first two joins and the time row
    it was paired with. *)
Lemma joined_row_parts (df df_songs df_artists time_table joined : DataFrame) :
  well_formed df ->
  fact_join df df_songs df_artists time_table = Ok joined ->
  exists y r l,
    getattr df_songs "year" = Ok y
    /\ getattr time_table "start_time" = Ok r
    /\ positions "start_time"
         ((df_columns df ++ delete y (df_columns df_songs)) ++ df_columns df_artists)
       = [l]
    /\ df_columns joined
       = ((df_columns df ++ delete y (df_columns df_songs)) ++ df_columns df_artists)
           ++ df_columns time_table
    /\ forall x, x ∈ df_rows joined ->
         exists e s a t,
           e ∈ df_rows df /\ s ∈ df_rows df_songs /\ a ∈ df_rows df_artists
           /\ t ∈ df_rows time_table
           /\ sql_eq (cell l ((e ++ delete y s) ++ a)) (cell r t) = true
           /\ x = ((e ++ delete y s) ++ a) ++ t.
Proof.
  intros Hwf Hjoin.
  destruct (fact_join_Ok _ _ _ _ _ Hjoin)
    as (song & title & y & artist & name & l & r & _ & _ & Hy & _ & Hr & _ & Hl & ->).
  apply getattr_Ok in Hl. cbn [join drop_column df_columns] in Hl.
  rewrite delete_app_right in Hl.
  exists y, r, l. split; [done|]. split; [done|]. split; [done|].
  split; [cbn [join drop_column df_columns]; by rewrite delete_app_right|].
  intros x Hx.
  apply join_rows in Hx as (ea & t & Hea & Ht & Hkt & ->).
  apply join_rows in Hea as (es & a & Hes & Ha & _ & ->).
  cbn [drop_column df_rows] in Hes.
  apply list_elem_of_fmap in Hes as (es' & -> & Hes).
  apply join_rows in Hes as (e & s & He & Hs & _ & ->).
  unfold well_formed in Hwf. rewrite Forall_forall in Hwf.
  cbn [join df_columns] in *. rewrite <- (Hwf e He), delete_app_right in *.
  exists e, s, a, t. by repeat split.
Qed.

Section FactKeys.

Variables df df_songs df_artists time_table joined : DataFrame.
Variables song_id artist_id start : nat.

Hypothesis df_well_formed : well_formed df.
Hypothesis songs_well_formed : well_formed df_songs.
Hypothesis artists_well_formed : well_formed df_artists.
Hypothesis song_id_column : resolve "song_id" (df_columns df_songs) = Ok song_id.
Hypothesis artist_id_column :
  resolve "artist_id" (df_columns df_artists) = Ok artist_id.
Hypothesis start_column : resolve "start_time" (df_columns df) = Ok start.
Hypothesis joins_succeed :
  fact_join df df_songs df_artists time_table = Ok joined.

(** C6.  Referential soundness of the three inner joins.  The frame they
    build, from which the fact rows are projected, has a column [song_id] that
    is the songs table's, a column [artist_id] that is the artists table's and
    a column [start_time] that is the time table's; in every row the three
    cells are the song id of a songs row, the artist id of an artists row and
    the start time of a time row, and the event's own start time is that time
    row's start time.  No joined row carries a key that its dimension table
    lacks. *)
Theorem fact_keys_from_dimensions :
  exists ps r,
    resolve "start_time" (df_columns time_table) = Ok r
    /\ (length (df_columns df) <= ps)%nat
    /\ let pt := (length (df_columns joined) - length (df_columns time_table) + r)%nat in
       let pa := (length (df_columns joined) - length (df_columns time_table)
                  - length (df_columns df_artists) + artist_id)%nat in
       df_columns joined !! ps = Some "song_id"
       /\ df_columns joined !! pa = Some "artist_id"
       /\ df_columns joined !! pt = Some "start_time"
       /\ forall x, x ∈ df_rows joined ->
            exists s a t,
              s ∈ df_rows df_songs /\ a ∈ df_rows df_artists
              /\ t ∈ df_rows time_table
              /\ cell ps x = cell song_id s
              /\ cell pa x = cell artist_id a
              /\ cell pt x = cell r t
              /\ cell start x = cell r t.
Proof.
  destruct (joined_row_parts _ _ _ _ _ df_well_formed joins_succeed)
    as (y & r & l & Hy & Hr & Hl & Hcols & Hrows).
  apply getattr_Ok in Hy, Hr.
  apply resolve_Ok in song_id_column, artist_id_column, start_column.
  assert (l = start) as ->.
  { rewrite !positions_app, start_column in Hl. by injection Hl. }
  assert (Hne : song_id <> y).
  { intros ->. apply positions_unique_lookup in song_id_column, Hy. congruence. }
  set (j := if decide (song_id < y)%nat then song_id else pred song_id).
  assert (Hj : delete y (df_columns df_songs) !! j = Some "song_id").
  { unfold j. rewrite lookup_delete_other by done.
    by apply positions_unique_lookup. }
  pose proof (lookup_lt_Some _ _ _ Hj) as Hjlt.
  pose proof (positions_lt _ _ _ artist_id_column) as Halt.
  pose proof (positions_lt _ _ _ start_column) as Hslt.
  exists (length (df_columns df) + j)%nat, r.
  split; [by apply resolve_Ok|]. split; [lia|].
  rewrite Hcols, !length_app.
  replace (length (df_columns df) + length (delete y (df_columns df_songs))
           + length (df_columns df_artists) + length (df_columns time_table)
           - length (df_columns time_table) + r)%nat
    with (length ((df_columns df ++ delete y (df_columns df_songs))
                    ++ df_columns df_artists) + r)%nat
    by (rewrite !length_app; lia).
  replace (length (df_columns df) + length (delete y (df_columns df_songs))
           + length (df_columns df_artists) + length (df_columns time_table)
           - length (df_columns time_table) - length (df_columns df_artists)
           + artist_id)%nat
    with (length (df_columns df ++ delete y (df_columns df_songs)) + artist_id)%nat
    by (rewrite !length_app; lia).
  cbv zeta. split; [|split; [|split]].
  - rewrite lookup_app_l by (rewrite !length_app; lia).
    rewrite lookup_app_l by (rewrite !length_app; lia).
    by rewrite lookup_app_plus.
  - rewrite lookup_app_l by (rewrite !length_app; lia).
    rewrite lookup_app_plus. by apply positions_unique_lookup.
  - rewrite lookup_app_plus. by apply positions_unique_lookup.
  - intros x Hx. destruct (Hrows x Hx)
      as (e & s & a & t & He & Hs & Ha & Ht & Hkey & ->).
    exists s, a, t. split; [done|]. split; [done|]. split; [done|].
    assert (Hle : length e = length (df_columns df)).
    { pose proof df_well_formed as H. unfold well_formed in H.
      rewrite Forall_forall in H. by apply H. }
    assert (Hls : length (delete y s) = length (delete y (df_columns df_songs))).
    { apply length_delete_same. pose proof songs_well_formed as H.
      unfold well_formed in H. rewrite Forall_forall in H. by apply H. }
    assert (Hla : length a = length (df_columns df_artists)).
    { pose proof artists_well_formed as H. unfold well_formed in H.
      rewrite Forall_forall in H. by apply H. }
    assert (Hpa : length (df_columns df ++ delete y (df_columns df_songs))
                  = length (e ++ delete y s)) by (rewrite !length_app; lia).
    assert (Hpt : length ((df_columns df ++ delete y (df_columns df_songs))
                            ++ df_columns df_artists)
                  = length ((e ++ delete y s) ++ a)) by (rewrite !length_app; lia).
    rewrite Hpa, Hpt, <- Hle. repeat split.
    + rewrite cell_app_l by (rewrite !length_app; lia).
      rewrite cell_app_l by (rewrite !length_app; lia).
      rewrite cell_app_r. unfold cell, j. by rewrite lookup_delete_other.
    + rewrite cell_app_l by (rewrite !length_app; lia).
      by rewrite cell_app_r.
    + by rewrite cell_app_r.
    + rewrite cell_app_l by (rewrite !length_app; lia).
      by apply sql_eq_true.
Qed.

End FactKeys.

Lemma fact_keys_from_dimensions_witness :
  exists ps r,
    resolve "start_time" (df_columns time_frame) = Ok r
    /\ (length (df_columns events_frame) <= ps)%nat
    /\ let pt := (length (df_columns joined_frame) - length (df_columns time_frame) + r)%nat in
       let pa := (length (df_columns joined_frame) - length (df_columns time_frame)
                  - length (df_columns artists_frame) + 0)%nat in
       df_columns joined_frame !! ps = Some "song_id"
       /\ df_columns joined_frame !! pa = Some "artist_id"
       /\ df_columns joined_frame !! pt = Some "start_time"
       /\ forall x, x ∈ df_rows joined_frame ->
            exists s a t,
              s ∈ df_rows songs_frame /\ a ∈ df_rows artists_frame
              /\ t ∈ df_rows time_frame
              /\ cell ps x = cell 0 s
              /\ cell pa x = cell 0 a
              /\ cell pt x = cell r t
              /\ cell 12 x = cell r t.
Proof.
  apply (fact_keys_from_dimensions events_frame songs_frame artists_frame
           time_frame joined_frame 0 0 12); try reflexivity; repeat constructor.
Defined.

(** In the one row of the example the three key cells are those of the
    songs, artists and time rows: SO1, AR1 and the start time of the event. *)
Example joined_frame_keys :
  (cell 13 <$> df_rows joined_frame) = [Str "SO1"]
  /\ (cell 17 <$> df_rows joined_frame) = [Str "AR1"]
  /\ (cell 22 <$> df_rows joined_frame) = [Timestamp start_2018_11_02]
  /\ (cell 0 <$> df_rows songs_frame) = [Str "SO1"]
  /\ (cell 0 <$> df_rows artists_frame) = [Str "AR1"]
  /\ (cell 0 <$> df_rows time_frame) = [Timestamp start_2018_11_02].
Proof. repeat split. Qed.

(** * Further properties of the code *)

(** ** The songs table (lines 58 to 65) *)

Lemma apply_schema_columns (schema : list string) (raw : DataFrame) :
  df_columns (apply_schema schema raw) = schema.
Proof. reflexivity. Qed.



Example scenario_A_well_typed :
  df_columns scenario_A_catalog = song_schema
  /\ Forall (fun r => well_typed_song r = true) (df_rows scenario_A_catalog).
Proof. split; [reflexivity | repeat constructor]. Qed.

(** Scenario A: both records of one song id are kept. *)
Example songs_table_of_scenario_A :
  songs_table_of (apply_schema song_schema scenario_A_catalog)
  = Ok (mkDataFrame columns
          [ [ Str "SO1"; Str "Jenny Take a Ride"; Str "AR1"; Int 1966; Dbl 7 ];
            [ Str "SO1"; Str "Jenny Take a Ride"; Str "AR1"; Int 1966; Dbl 8 ] ]).
Proof. reflexivity. Qed.

(** ** What a run writes *)

Lemma process_song_data_raises (input_data output_data : string)
    (σ : gmap string Table) :
  exists e, (process_song_data input_data output_data σ).2 = Err e.
Proof.
  rewrite process_song_data_run.
  destruct (σ !! glob_base _); [|simpl; eauto].
  destruct (σ !! (output_data +:+ "songs/")); simpl; eauto.
Qed.

(** [process_song_data] never returns normally, and the only path it can
    change is [songs/] under the output root. *)
Theorem process_song_data_footprint :
  forall (input_data output_data : string) (σ : gmap string Table),
    (exists e, (process_song_data input_data output_data σ).2 = Err e)
    /\ forall path, path <> output_data +:+ "songs/" ->
         (process_song_data input_data output_data σ).1 !! path = σ !! path.
Proof.
  intros input_data output_data σ. split; [apply process_song_data_raises|].
  rewrite process_song_data_run.
  destruct (σ !! glob_base _); [|done].
  destruct (σ !! (output_data +:+ "songs/")); simpl; [done|].
  intros path Hp. by rewrite lookup_insert_ne.
Qed.

(** [main] never reaches [process_log_data]: a run of [main] is the run of
    [process_song_data] on the two fixed roots, exception included. *)
Theorem main_stops_after_song_data :
  forall σ : gmap string Table,
    main σ
    = process_song_data "s3a://udacity-dend/" "s3a://datalake-project-jin/output/" σ.
Proof.
  intros σ. rewrite main_run.
  destruct (process_song_data_raises "s3a://udacity-dend/"
              "s3a://datalake-project-jin/output/" σ) as [e He].
  destruct (process_song_data _ _ σ) as [σ' r]. simpl in He. by rewrite He.
Qed.

Lemma time_table_of_Err (df : DataFrame) : exists e, time_table_of df = Err e.
Proof.
  unfold time_table_of.
  destruct (time_columns df) as [t|e]; [exists (NameError "dayofweek") | exists e];
    reflexivity.
Qed.

Lemma write_parquet_default (df : DataFrame) (path : string) (σ : gmap string Table) :
  write_parquet df [] ErrorIfExists path σ
  = match σ !! path with
    | Some _ => (σ, Err (AnalysisException (PathAlreadyExists path)))
    | None => (<[path := mkTable [] df]> σ, Ok tt)
    end.
Proof. reflexivity. Qed.

(** [process_log_data] never returns normally either, and the only path it
    can change is [users/] under the output root: on no input does it write
    [time/] or [songplays/]. *)
Theorem process_log_data_footprint :
  forall (input_data output_data : string) (σ : gmap string Table),
    (exists e, (process_log_data input_data output_data σ).2 = Err e)
    /\ forall path, path <> output_data +:+ "users/" ->
         (process_log_data input_data output_data σ).1 !! path = σ !! path.
Proof.
  intros input_data output_data σ.
  unfold process_log_data, read, mbind, M_bind, lift.
  destruct (σ !! glob_base _) as [raw|]; [|simpl; eauto].
  destruct (song_plays (contents raw)) as [df|e]; [|simpl; eauto].
  destruct (user_table_of df) as [users|e]; [|simpl; eauto].
  rewrite write_parquet_default.
  destruct (σ !! (output_data +:+ "users/")) as [old|] eqn:Hold; [simpl; eauto|].
  destruct (with_start_time df) as [df'|e].
  - destruct (time_table_of_Err df') as [e He]. rewrite He. simpl.
    split; [eauto|]. intros path Hp. by rewrite lookup_insert_ne.
  - simpl. split; [eauto|]. intros path Hp. by rewrite lookup_insert_ne.
Qed.

(** ** The augmented event stream (lines 103 and 104) *)

Lemma get_datetime_Int (z : Z) :
  0 <= z < 4294967296000 -> get_datetime (Int z) = Ok (start_time_of (Int z)).
Proof.
  intros Hz. unfold get_datetime, utcfromtimestamp, start_time_of.
  rewrite millis_floor, (round_half_even_comp _ _ (millis_fraction z)),
    round_half_even_inject_Z.
  assert (Hus : (1000000 <=? z mod 1000 * 1000) = false)
    by (apply Z.leb_gt; Z.to_euclidean_division_equations; lia).
  rewrite Hus. cbv zeta. rewrite datetime_at_year.
  assert (Hd : 0 <= z / 1000 / 86400 < 49711)
    by (Z.to_euclidean_division_equations; lia).
  pose proof (civil_year_range _ Hd) as Hy.
  assert (Hr : (1 <=? (civil_from_days (z / 1000 / 86400)).1.1)
               && ((civil_from_days (z / 1000 / 86400)).1.1 <=? 9999) = true).
  { apply andb_true_iff. split; apply Z.leb_le; lia. }
  rewrite Hr. reflexivity.
Qed.

Lemma eval_rows_Forall (f : list value -> result value) (g : list value -> value)
    (rs : list (list value)) :
  Forall (fun r => f r = Ok (g r)) rs -> eval_rows f rs = Ok (g <$> rs).
Proof.
  induction 1 as [|r rs Hr _ IH]; simpl; [done|]. rewrite Hr. simpl.
  rewrite IH. reflexivity.
Qed.

(** The augmented stream keeps every event and every column.  On a log whose
    [ts] cells are integers (epoch milliseconds from 1970 to early 2106) and
    that has no [start_time] column yet, lines 103 and 104 succeed and append
    to each event, in place, the start time derived from its own [ts]. *)
Theorem with_start_time_appends :
  forall (df : DataFrame) (i : nat),
    resolve "ts" (df_columns df) = Ok i ->
    "start_time" ∉ df_columns df ->
    Forall (fun r => exists z, cell i r = Int z /\ 0 <= z < 4294967296000)
      (df_rows df) ->
    with_start_time df
    = Ok (mkDataFrame (df_columns df ++ ["start_time"])
            ((fun r => r ++ [start_time_of (cell i r)]) <$> df_rows df)).
Proof.
  intros df i Hi Hfresh Hrows. unfold with_start_time.
  change (global "udf") with (Ok Opaque).
  change (global "TimestampType") with (Ok Opaque).
  cbn [mbind result_bind]. unfold withColumn. rewrite Hi. cbn [mbind result_bind].
  rewrite (eval_rows_Forall _ (fun r => start_time_of (cell i r))).
  2: { eapply Forall_impl; [exact Hrows|]. intros r (z & Hz & Hrange). simpl.
       rewrite Hz. by apply get_datetime_Int. }
  cbn [mbind result_bind]. cbv zeta.
  rewrite (proj2 (positions_nil _ _) Hfresh), zip_with_fmap_same. reflexivity.
Qed.

Lemma with_start_time_appends_witness :
  with_start_time
    (mkDataFrame log_columns [play_event "NextPage" 1541121934796])
  = Ok events_frame.
Proof.
  rewrite (with_start_time_appends
             (mkDataFrame log_columns [play_event "NextPage" 1541121934796]) 9%nat).
  - reflexivity.
  - reflexivity.
  - apply positions_nil. reflexivity.
  - repeat constructor. exists 1541121934796. split; [reflexivity | lia].
Defined.

(** ** The time table as a key table (lines 107 to 112 and 127) *)

(** [start_time] is a key of the time columns: no two rows share a start
    time, and the start times of the rows are exactly the start times of the
    events, nulls included. *)
Theorem time_columns_start_time_key :
  forall (df tt : DataFrame) (l : nat),
    resolve "start_time" (df_columns df) = Ok l ->
    time_columns df = Ok tt ->
    NoDup (cell 0 <$> df_rows tt)
    /\ forall v, v ∈ (cell 0 <$> df_rows tt) <-> exists e, e ∈ df_rows df /\ cell l e = v.
Proof.
  intros df tt l Hl (i & Hi & ->)%time_columns_Ok.
  assert (i = l) as -> by congruence. cbn [df_rows].
  rewrite <- list_fmap_compose.
  assert (Hcell : (cell 0 ∘ time_row) <$> remove_dups (project [l] <$> df_rows df)
                  = cell 0 <$> remove_dups (project [l] <$> df_rows df)).
  { apply list_fmap_ext. intros ? r _. reflexivity. }
  rewrite Hcell. split.
  - apply NoDup_fmap_2_strong; [|apply NoDup_remove_dups].
    intros x y Hx Hy Heq.
    apply elem_of_remove_dups, list_elem_of_fmap in Hx as (x' & -> & _).
    apply elem_of_remove_dups, list_elem_of_fmap in Hy as (y' & -> & _).
    change (cell l x' = cell l y') in Heq. unfold project. simpl. by rewrite Heq.
  - intros v. rewrite list_elem_of_fmap. split.
    + intros (r & -> & Hr).
      apply elem_of_remove_dups, list_elem_of_fmap in Hr as (e & -> & He).
      exists e. split; [done | reflexivity].
    + intros (e & He & <-). exists (project [l] e). split; [reflexivity|].
      apply elem_of_remove_dups, list_elem_of_fmap. eauto.
Qed.

Lemma time_columns_start_time_key_witness :
  NoDup (cell 0 <$> df_rows time_frame)
  /\ forall v, v ∈ (cell 0 <$> df_rows time_frame)
       <-> exists e, e ∈ df_rows events_frame /\ cell 12 e = v.
Proof.
  apply (time_columns_start_time_key events_frame time_frame 12%nat).
  - reflexivity.
  - vm_compute. reflexivity.
Defined.

Lemma filter_fmap_swap {A B : Type} (p : B -> bool) (f : A -> B) (l : list A) :
  List.filter p (f <$> l) = f <$> List.filter (fun a => p (f a)) l.
Proof.
  induction l as [|a l IH]; simpl; [done|].
  destruct (p (f a)); simpl; [f_equal|]; exact IH.
Qed.

Lemma filter_all_false {A : Type} (p : A -> bool) (l : list A) :
  (forall a, p a = false) -> List.filter p l = [].
Proof. intros H. induction l as [|a l IH]; simpl; [done|]. by rewrite H. Qed.

Lemma filter_the_one {A : Type} `{EqDecision A} (x : A) (l : list A) :
  NoDup l -> x ∈ l -> List.filter (fun y => bool_decide (y = x)) l = [x].
Proof.
  induction 1 as [|y l Hy Hnd IH]; intros Hx; [by apply elem_of_nil in Hx|].
  simpl. case_bool_decide as Hyx.
  - subst y. f_equal. clear IH Hx. induction l as [|z l IH]; simpl; [done|].
    apply not_elem_of_cons in Hy as [Hne Hy].
    rewrite bool_decide_eq_false_2 by congruence.
    apply IH; [done | by apply NoDup_cons_1_2 in Hnd].
  - apply elem_of_cons in Hx as [->|Hx]; [done|]. by apply IH.
Qed.

Lemma sql_eq_Null_l (v : value) : sql_eq Null v = false.
Proof. reflexivity. Qed.

Lemma sql_eq_decide (a b : value) :
  a <> Null -> sql_eq a b = bool_decide (b = a).
Proof.
  intros Ha. unfold sql_eq. destruct a; [done|..]; destruct b;
    try (symmetry; apply bool_decide_eq_false_2; discriminate);
    apply bool_decide_ext; split; congruence.
Qed.

(** The rows of the join with the time columns, as the nested loop of [join]
    lists them. *)
Lemma time_join_rows (df tt left : DataFrame) (l k : nat) :
  resolve "start_time" (df_columns df) = Ok l ->
  time_columns df = Ok tt ->
  (forall a, a ∈ df_rows left ->
     cell k a = Null \/ exists e, e ∈ df_rows df /\ cell l e = cell k a) ->
  df_rows (join left tt k 0)
  = (fun a => a ++ time_row [cell k a])
      <$> List.filter (fun a => negb (bool_decide (cell k a = Null))) (df_rows left).
Proof.
  intros Hl (i & Hi & ->)%time_columns_Ok Hleft.
  assert (i = l) as -> by congruence. unfold join. cbn [df_rows].
  induction (df_rows left) as [|a rows IH]; [reflexivity|].
  change ((a :: rows) ≫= ?f) with (f a ++ (rows ≫= f)).
  rewrite IH by (intros b Hb; apply Hleft; by right). clear IH.
  cbn [List.filter]. destruct (Hleft a) as [Hnull|(e & He & Hcell)]; [by left| |].
  - rewrite Hnull. rewrite bool_decide_eq_true_2 by done. cbn [negb].
    rewrite filter_all_false by (intros; apply sql_eq_Null_l). reflexivity.
  - case_bool_decide as Hnull; cbn [negb].
    + rewrite Hnull. rewrite filter_all_false by (intros; apply sql_eq_Null_l). reflexivity.
    + rewrite filter_fmap_swap.
      assert (Hfilter :
        List.filter (fun m => sql_eq (cell k a) (cell 0 (time_row m)))
          (remove_dups (project [l] <$> df_rows df))
        = [ [cell k a] ]).
      { transitivity
          (List.filter (fun m => bool_decide (m = [cell k a]))
             (remove_dups (project [l] <$> df_rows df)));
          [|apply filter_the_one; [apply NoDup_remove_dups|]].
        - apply filter_ext_in. intros m Hm.
          apply list_elem_of_In, elem_of_remove_dups, list_elem_of_fmap in Hm
            as (e' & -> & _).
          change (cell 0 (time_row (project [l] e'))) with (cell l e').
          rewrite sql_eq_decide by done. apply bool_decide_ext.
          unfold project. simpl. split; [by intros -> | by intros [= ->]].
        - apply elem_of_remove_dups, list_elem_of_fmap. exists e.
          split; [|done]. unfold project. simpl. by rewrite Hcell. }
      rewrite Hfilter. reflexivity.
Qed.

(** The join with the time table neither drops nor multiplies events.  For a
    frame whose start times are start times of the events the time columns
    were derived from, joining it to the time columns on [start_time] yields,
    up to the order of the rows, each of its rows with a non-null start time
    exactly once, next to the time row of that start time; a row with a null
    start time finds no partner. *)
Theorem time_join_one_row_per_event :
  forall (df tt left : DataFrame) (l k : nat),
    resolve "start_time" (df_columns df) = Ok l ->
    time_columns df = Ok tt ->
    (forall a, a ∈ df_rows left ->
       cell k a = Null \/ exists e, e ∈ df_rows df /\ cell l e = cell k a) ->
    df_rows (join left tt k 0)
    ≡ₚ (fun a => a ++ time_row [cell k a])
         <$> List.filter (fun a => negb (bool_decide (cell k a = Null))) (df_rows left).
Proof.
  intros df tt left l k Hl Htt Hleft.
  by rewrite (time_join_rows df tt left l k Hl Htt Hleft).
Qed.

Lemma time_join_one_row_per_event_witness :
  df_rows (join events_frame time_frame 12 0)
  ≡ₚ (fun a => a ++ time_row [cell 12 a])
       <$> List.filter (fun a => negb (bool_decide (cell 12 a = Null)))
             (df_rows events_frame).
Proof.
  apply (time_join_one_row_per_event events_frame time_frame events_frame 12%nat).
  - reflexivity.
  - vm_compute. reflexivity.
  - intros a Ha. right. by exists a.
Defined.

(** ** The three joins as a set of matches (lines 125 to 127) *)

Section FactJoinRows.

Variables df df_songs df_artists time_table joined : DataFrame.
Variables song title y artist name l r : nat.

Hypothesis df_well_formed : well_formed df.
Hypothesis song_column : getattr df "song" = Ok song.
Hypothesis title_column : getattr df_songs "title" = Ok title.
Hypothesis year_column : getattr df_songs "year" = Ok y.
Hypothesis artist_column : resolve "artist" (df_columns df) = Ok artist.
Hypothesis name_column : getattr df_artists "name" = Ok name.
Hypothesis start_column : resolve "start_time" (df_columns df) = Ok l.
Hypothesis time_column : getattr time_table "start_time" = Ok r.
Hypothesis joins_succeed :
  fact_join df df_songs df_artists time_table = Ok joined.

(** The joined frame holds exactly the matches: one row for every event, song,
    artist and time row such that the event's song is the song's title, its
    artist is the artist's name and its start time is the time row's, none of
    them null; nothing else.  An event without a match in one of the three
    tables leaves no row, and an event with several matches leaves several. *)
Theorem fact_join_rows_exact :
  forall x,
    x ∈ df_rows joined <->
    exists e s a t,
      e ∈ df_rows df /\ s ∈ df_rows df_songs /\ a ∈ df_rows df_artists
      /\ t ∈ df_rows time_table
      /\ sql_eq (cell song e) (cell title s) = true
      /\ sql_eq (cell artist e) (cell name a) = true
      /\ sql_eq (cell l e) (cell r t) = true
      /\ x = ((e ++ delete y s) ++ a) ++ t.
Proof.
  destruct (fact_join_Ok _ _ _ _ _ joins_succeed)
    as (song' & title' & y' & artist' & name' & l' & r'
        & Hs & Ht & Hy & Hn & Hr & Ha & Hl & Hj).
  assert (song' = song) as -> by congruence.
  assert (title' = title) as -> by congruence.
  assert (y' = y) as -> by congruence.
  assert (name' = name) as -> by congruence.
  assert (r' = r) as -> by congruence.
  apply getattr_Ok in Ha, Hl. apply resolve_Ok in artist_column, start_column.
  cbn [join drop_column df_columns] in Ha, Hl.
  rewrite delete_app_right, positions_app, artist_column in Ha.
  rewrite delete_app_right, !positions_app, start_column in Hl.
  assert (artist' = artist) as -> by (by injection Ha).
  assert (l' = l) as -> by (by injection Hl).
  assert (Hlen : forall e, e ∈ df_rows df -> length e = length (df_columns df)).
  { unfold well_formed in df_well_formed.
    by rewrite Forall_forall in df_well_formed. }
  assert (Hartist : (artist < length (df_columns df))%nat)
    by (by apply positions_lt in artist_column).
  assert (Hstart : (l < length (df_columns df))%nat)
    by (by apply positions_lt in start_column).
  intros x. rewrite Hj. split.
  - intros Hx. apply join_rows in Hx as (ea & t & Hea & Hti & Hkt & ->).
    apply join_rows in Hea as (es & a & Hes & Hai & Hka & ->).
    cbn [drop_column df_rows] in Hes.
    apply list_elem_of_fmap in Hes as (es' & -> & Hes).
    apply join_rows in Hes as (e & s & He & Hsi & Hks & ->).
    cbn [join df_columns] in *.
    rewrite <- (Hlen e He), delete_app_right in *.
    rewrite cell_app_l in Hkt by (rewrite length_app; lia).
    rewrite cell_app_l in Hkt by lia. rewrite cell_app_l in Hka by lia.
    exists e, s, a, t. by repeat split.
  - intros (e & s & a & t & He & Hsi & Hai & Hti & Hks & Hka & Hkt & ->).
    apply join_rows. exists ((e ++ delete y s) ++ a), t.
    split; [|split; [done|split; [|done]]].
    + apply join_rows. exists (e ++ delete y s), a.
      split; [|split; [done|split; [|done]]].
      * cbn [drop_column df_rows]. apply list_elem_of_fmap. exists (e ++ s).
        split; [cbn [join df_columns]; by rewrite <- (Hlen e He), delete_app_right|].
        apply join_rows. by exists e, s.
      * rewrite cell_app_l by (rewrite (Hlen e He); lia). done.
    + rewrite cell_app_l by (rewrite !length_app, (Hlen e He); lia).
      rewrite cell_app_l by (rewrite (Hlen e He); lia). done.
Qed.

End FactJoinRows.

Lemma fact_join_rows_exact_witness :
  Forall
    (fun x =>
       exists e s a t,
         e ∈ df_rows events_frame /\ s ∈ df_rows songs_frame
         /\ a ∈ df_rows artists_frame /\ t ∈ df_rows time_frame
         /\ sql_eq (cell 8 e) (cell 1 s) = true
         /\ sql_eq (cell 0 e) (cell 1 a) = true
         /\ sql_eq (cell 12 e) (cell 0 t) = true
         /\ x = ((e ++ delete 3%nat s) ++ a) ++ t)
    (df_rows joined_frame).
Proof.
  apply Forall_forall. intros x.
  apply (fact_join_rows_exact events_frame songs_frame artists_frame time_frame
           joined_frame 8 1 3 0 1 12 0); try reflexivity.
  repeat constructor.
Defined.

(** ** The users table as a set of tuples (lines 96 and 97) *)

(** When the projection of line 96 goes through, the users frame has the five
    output names of line 96, its rows are pairwise distinct, and they are
    exactly the tuples (user, first name, last name, gender, level) that occur
    among the events it is given: every such tuple once.  A user who occurs
    with two levels has two rows. *)
Theorem user_table_of_Ok :
  forall df t : DataFrame,
    user_table_of df = Ok t ->
    exists idx,
      resolve_all ["userdId"; "firstName"; "lastName"; "gender"; "level"]
        (df_columns df) = Ok idx
      /\ df_columns t = ["user_id"; "first_name"; "last_name"; "gender"; "level"]
      /\ NoDup (df_rows t)
      /\ forall x, x ∈ df_rows t <-> exists r, r ∈ df_rows df /\ x = project idx r.
Proof.
  intros df t H. unfold user_table_of, selectExpr in H.
  change (parse_all user_cols)
    with (Ok [ ("userdId", "user_id"); ("firstName", "first_name");
               ("lastName", "last_name"); ("gender", "gender");
               ("level", "level") ]) in H.
  cbn [mbind result_bind] in H. inv_bind H. injection H as <-.
  apply bind_Ok in E as (idx & Hidx & [= <-]).
  exists idx. split; [exact Hidx|]. split; [reflexivity|].
  split; [apply NoDup_remove_dups|].
  intros r. cbn [dropDuplicates df_rows].
  rewrite elem_of_remove_dups, list_elem_of_fmap.
  split; [intros (r' & -> & Hr) | intros (r' & Hr & ->)]; eauto.
Qed.

Lemma user_table_of_Ok_witness :
  exists idx,
    resolve_all ["userdId"; "firstName"; "lastName"; "gender"; "level"]
      ["userdId"; "firstName"; "lastName"; "gender"; "level"] = Ok idx
    /\ ["user_id"; "first_name"; "last_name"; "gender"; "level"]
       = ["user_id"; "first_name"; "last_name"; "gender"; "level"]
    /\ NoDup [ [Int 10; Str "Ann"; Str "Banks"; Str "F"; Str "free"];
               [Int 10; Str "Ann"; Str "Banks"; Str "F"; Str "paid"] ]
    /\ forall x,
         x ∈ [ [Int 10; Str "Ann"; Str "Banks"; Str "F"; Str "free"];
               [Int 10; Str "Ann"; Str "Banks"; Str "F"; Str "paid"] ]
         <-> exists r,
               r ∈ [ [Int 10; Str "Ann"; Str "Banks"; Str "F"; Str "free"];
                     [Int 10; Str "Ann"; Str "Banks"; Str "F"; Str "free"];
                     [Int 10; Str "Ann"; Str "Banks"; Str "F"; Str "paid"] ]
               /\ x = project idx r.
Proof.
  apply (user_table_of_Ok
           (mkDataFrame ["userdId"; "firstName"; "lastName"; "gender"; "level"]
              [ [Int 10; Str "Ann"; Str "Banks"; Str "F"; Str "free"];
                [Int 10; Str "Ann"; Str "Banks"; Str "F"; Str "free"];
                [Int 10; Str "Ann"; Str "Banks"; Str "F"; Str "paid"] ])
           (mkDataFrame ["user_id"; "first_name"; "last_name"; "gender"; "level"]
              [ [Int 10; Str "Ann"; Str "Banks"; Str "F"; Str "free"];
                [Int 10; Str "Ann"; Str "Banks"; Str "F"; Str "paid"] ])).
  reflexivity.
Defined.

(** ** One value per column *)

Lemma resolve_all_length (names cols : list string) (idx : list nat) :
  resolve_all names cols = Ok idx -> length idx = length names.
Proof.
  revert idx. induction names as [|n names IH]; intros idx H; simpl in H.
  - by injection H as <-.
  - inv_bind H. injection H as <-. simpl. f_equal. by apply IH.
Qed.

Lemma parse_all_length (es : list string) (ps : list (string * string)) :
  parse_all es = Ok ps -> length ps = length es.
Proof.
  revert ps. induction es as [|e es IH]; intros ps H; simpl in H.
  - by injection H as <-.
  - inv_bind H. injection H as <-. simpl. f_equal. by apply IH.
Qed.

Lemma select_well_formed (names : list string) (df t : DataFrame) :
  select names df = Ok t -> well_formed t.
Proof.
  unfold select. intros H. inv_bind H. injection H as <-.
  unfold well_formed. cbn [df_rows df_columns]. rewrite Forall_fmap.
  apply Forall_true. intros r. simpl. unfold project.
  rewrite length_fmap. by apply resolve_all_length in E.
Qed.

Lemma selectExpr_well_formed (exprs : list string) (df t : DataFrame) :
  selectExpr exprs df = Ok t -> well_formed t.
Proof.
  unfold selectExpr. intros H. inv_bind H. injection H as <-.
  unfold well_formed. cbn [df_rows df_columns]. rewrite Forall_fmap.
  apply Forall_true. intros r. simpl. unfold project.
  apply resolve_all_length in E0. rewrite !length_fmap in *. done.
Qed.

Lemma dropDuplicates_well_formed (df : DataFrame) :
  well_formed df -> well_formed (dropDuplicates df).
Proof.
  unfold well_formed, dropDuplicates. cbn [df_rows df_columns].
  rewrite !Forall_forall. intros H r Hr. apply H. by apply elem_of_remove_dups.
Qed.

Lemma filter_eq_well_formed (i : nat) (v : value) (df : DataFrame) :
  well_formed df -> well_formed (filter_eq i v df).
Proof.
  unfold well_formed, filter_eq. cbn [df_rows df_columns].
  rewrite !Forall_forall. intros H r Hr. apply H.
  apply list_elem_of_In, filter_In in Hr as [Hr _]. by apply list_elem_of_In.
Qed.

Lemma Forall_zip_with {A B C : Type} (P : A -> Prop) (Q : C -> Prop)
    (f : A -> B -> C) (l : list A) (k : list B) :
  (forall a b, P a -> Q (f a b)) -> Forall P l -> Forall Q (zip_with f l k).
Proof.
  intros Hf Hl. revert k. induction Hl as [|a l Ha _ IH]; intros [|b k]; simpl;
    constructor; auto.
Qed.

Lemma withColumn_well_formed (name src : string) (f : value -> result value)
    (df t : DataFrame) :
  well_formed df -> withColumn name f src df = Ok t -> well_formed t.
Proof.
  unfold withColumn. intros Hwf H. inv_bind H. injection H as <-.
  unfold well_formed in *. cbn [df_rows df_columns].
  eapply Forall_zip_with; [|exact Hwf]. intros r v Hr. simpl in *.
  destruct (positions name (df_columns df)).
  - rewrite !length_app. simpl. lia.
  - rewrite length_fmap, length_zip. lia.
Qed.

(** Every frame the stages build has one value per column.  The projections
    of lines 62, 69, 97 and the time columns are well formed whatever they are
    given; the page filter, the start-time column and the three joins keep
    well-formed frames well formed. *)
Theorem stages_well_formed :
  (forall df t, songs_table_of df = Ok t -> well_formed t)
  /\ (forall df t, artists_table_of df = Ok t -> well_formed t)
  /\ (forall df t, user_table_of df = Ok t -> well_formed t)
  /\ (forall df t, time_columns df = Ok t -> well_formed t)
  /\ (forall df t, well_formed df -> song_plays df = Ok t -> well_formed t)
  /\ (forall df t, well_formed df -> with_start_time df = Ok t -> well_formed t)
  /\ (forall df df_songs df_artists time_table joined,
        well_formed df -> well_formed df_songs -> well_formed df_artists ->
        well_formed time_table ->
        fact_join df df_songs df_artists time_table = Ok joined ->
        well_formed joined).
Proof.
  repeat split.
  - intros df t H. by apply select_well_formed in H.
  - intros df t H. unfold artists_table_of in H. inv_bind H. injection H as <-.
    apply dropDuplicates_well_formed. by eapply selectExpr_well_formed.
  - intros df t H. unfold user_table_of in H. inv_bind H. injection H as <-.
    apply dropDuplicates_well_formed. by eapply selectExpr_well_formed.
  - intros df t (i & _ & ->)%time_columns_Ok. unfold well_formed.
    cbn [df_rows df_columns]. rewrite Forall_fmap. by apply Forall_true.
  - intros df t Hwf H. unfold song_plays in H. inv_bind H. injection H as <-.
    by apply filter_eq_well_formed.
  - intros df t Hwf H. unfold with_start_time in H. inv_bind H.
    by eapply withColumn_well_formed.
  - intros df df_songs df_artists time_table joined Hwf Hs Ha Ht H.
    destruct (fact_join_Ok _ _ _ _ _ H)
      as (song & title & y & artist & name & l & r & _ & _ & _ & _ & _ & _ & _ & ->).
    auto with frames.
Qed.

(** ** The outcomes of the catalog stage (lines 58 to 72) *)

(** [process_song_data] has three outcomes.  Without a catalog under the
    input root it raises and writes nothing.  With a catalog and a table
    already under [songs/] it raises there and writes nothing.  With a catalog
    and no such table it stores the songs projection of every record under
    [songs/], partitioned by year and artist id, and then raises at line 69. *)
Theorem process_song_data_outcomes :
  forall (input_data output_data : string) (σ : gmap string Table),
    (σ !! glob_base (input_data +:+ "song_data/*/*/*/*.json") = None ->
     process_song_data input_data output_data σ
     = (σ, Err (AnalysisException
                  (PathDoesNotExist (input_data +:+ "song_data/*/*/*/*.json")))))
    /\ (forall raw old,
          σ !! glob_base (input_data +:+ "song_data/*/*/*/*.json") = Some raw ->
          σ !! (output_data +:+ "songs/") = Some old ->
          process_song_data input_data output_data σ
          = (σ, Err (AnalysisException
                       (PathAlreadyExists (output_data +:+ "songs/")))))
    /\ (forall raw,
          σ !! glob_base (input_data +:+ "song_data/*/*/*/*.json") = Some raw ->
          σ !! (output_data +:+ "songs/") = None ->
          exists songs,
            songs_table_of (apply_schema song_schema (contents raw)) = Ok songs
            /\ length (df_rows songs) = length (df_rows (contents raw))
            /\ process_song_data input_data output_data σ
               = (<[output_data +:+ "songs/" := mkTable ["year"; "artist_id"] songs]> σ,
                  Err (AnalysisException (CannotResolve "artist_lattitude")))).
Proof.
  intros input_data output_data σ. rewrite process_song_data_run.
  split; [|split].
  - intros ->. reflexivity.
  - intros raw old -> ->. reflexivity.
  - intros raw -> ->. eexists. split; [apply songs_table_of_schema|].
    split; [|reflexivity]. cbn [df_rows apply_schema]. by rewrite !length_fmap.
Qed.

Example process_song_data_store0 :
  process_song_data "s3a://udacity-dend/" "s3a://datalake-project-jin/output/" store0
  = (<["s3a://datalake-project-jin/output/songs/" :=
         mkTable ["year"; "artist_id"] songs_frame]> store0,
     Err (AnalysisException (CannotResolve "artist_lattitude"))).
Proof. rewrite process_song_data_run. reflexivity. Qed.

(** ** Existing tables are never replaced *)

(** Neither stage replaces or removes a table: whatever is stored under a path
    before a run of [process_song_data] or of [process_log_data] is stored
    under it afterwards, unchanged.  The one write that asks to overwrite,
    line 117, is never reached. *)
Theorem runs_keep_existing_tables :
  forall (input_data output_data path : string) (σ : gmap string Table) (t : Table),
    σ !! path = Some t ->
    (process_song_data input_data output_data σ).1 !! path = Some t
    /\ (process_log_data input_data output_data σ).1 !! path = Some t.
Proof.
  intros input_data output_data path σ t Ht. split.
  - rewrite process_song_data_run.
    destruct (σ !! glob_base _); [|done].
    destruct (σ !! (output_data +:+ "songs/")) eqn:Hs; simpl; [done|].
    rewrite lookup_insert_ne; [done|]. intros <-. congruence.
  - unfold process_log_data, read, mbind, M_bind, lift.
    destruct (σ !! glob_base _) as [raw|]; [|done].
    destruct (song_plays (contents raw)) as [df|e]; [|done].
    destruct (user_table_of df) as [users|e]; [|done].
    rewrite write_parquet_default.
    destruct (σ !! (output_data +:+ "users/")) as [old|] eqn:Hold; [done|].
    assert (Hne : output_data +:+ "users/" <> path) by (intros <-; congruence).
    destruct (with_start_time df) as [df'|e].
    + destruct (time_table_of_Err df') as [e He]. rewrite He. simpl.
      by rewrite lookup_insert_ne.
    + simpl. by rewrite lookup_insert_ne.
Qed.

Lemma runs_keep_existing_tables_witness :
  (process_song_data "s3a://udacity-dend/" "s3a://datalake-project-jin/output/"
     store0).1 !! "s3a://udacity-dend/log_data/"
  = Some (mkTable [] scenario_B_log)
  /\ (process_log_data "s3a://udacity-dend/" "s3a://datalake-project-jin/output/"
        store0).1 !! "s3a://udacity-dend/log_data/"
     = Some (mkTable [] scenario_B_log).
Proof.
  apply (runs_keep_existing_tables "s3a://udacity-dend/"
           "s3a://datalake-project-jin/output/" "s3a://udacity-dend/log_data/"
           store0).
  reflexivity.
Defined.

(** ** The users table on storage (lines 90 to 100) *)

(** When the log is there, the filter and the projection of lines 93 to 97
    go through and nothing is stored under [users/] yet, [process_log_data]
    stores the users frame there, unpartitioned, before it raises. *)
Theorem process_log_data_writes_users :
  forall (input_data output_data : string) (σ : gmap string Table)
         (raw : Table) (df users : DataFrame),
    σ !! glob_base (input_data +:+ "log_data/*/*/*.json") = Some raw ->
    song_plays (contents raw) = Ok df ->
    user_table_of df = Ok users ->
    σ !! (output_data +:+ "users/") = None ->
    exists e,
      process_log_data input_data output_data σ
      = (<[output_data +:+ "users/" := mkTable [] users]> σ, Err e).
Proof.
  intros input_data output_data σ raw df users Hraw Hdf Husers Hnone.
  unfold process_log_data, read, mbind, M_bind, lift.
  rewrite Hraw, Hdf, Husers, write_parquet_default, Hnone.
  destruct (with_start_time df) as [df'|e]; [|eauto].
  destruct (time_table_of_Err df') as [e He]. rewrite He. eauto.
Qed.

Lemma process_log_data_writes_users_witness :
  exists e,
    process_log_data "s3a://udacity-dend/" "s3a://datalake-project-jin/output/"
      {[ "s3a://udacity-dend/log_data/" := mkTable [] misspelt_log ]}
    = (<["s3a://datalake-project-jin/output/users/" :=
           mkTable []
             (mkDataFrame ["user_id"; "first_name"; "last_name"; "gender"; "level"]
                [ [Int 10; Str "Ann"; Str "Banks"; Str "F"; Str "free"];
                  [Int 10; Str "Ann"; Str "Banks"; Str "F"; Str "paid"] ])]>
         {[ "s3a://udacity-dend/log_data/" := mkTable [] misspelt_log ]},
       Err e).
Proof.
  apply (process_log_data_writes_users "s3a://udacity-dend/"
           "s3a://datalake-project-jin/output/"
           {[ "s3a://udacity-dend/log_data/" := mkTable [] misspelt_log ]}
           (mkTable [] misspelt_log)
           (mkDataFrame (df_columns misspelt_log) (take 2 (df_rows misspelt_log))));
    reflexivity.
Defined.

(** ** Distinct timestamps, distinct start times (line 103) *)

Lemma all_from_spec (n : nat) (d : Z) (p : Z -> bool) :
  all_from n d p = true ->
  forall k, d <= k < d + Z.of_nat n -> p k = true.
Proof.
  revert d. induction n as [|n IH]; intros d H k Hk; [lia|].
  simpl in H. apply andb_true_iff in H as [Hd Hrest].
  destruct (decide (k = d)) as [->|Hne]; [done|].
  apply (IH (d + 1)); [done | lia].
Qed.

Lemma day_round_trip_to_2106 : all_from (Z.to_nat 49711) 0 day_round_trip = true.
Proof. vm_compute. reflexivity. Qed.

Lemma days_from_civil_from_days (d : Z) (y m dd : Z) :
  0 <= d < 49711 -> civil_from_days d = (y, m, dd) -> days_from_civil y m dd = d.
Proof.
  intros Hd Hc.
  pose proof (all_from_spec _ _ _ day_round_trip_to_2106 d) as H.
  rewrite Z2Nat.id in H by lia. specialize (H ltac:(lia)).
  unfold day_round_trip in H. rewrite Hc in H. by apply Z.eqb_eq.
Qed.

Lemma datetime_at_inj (s s' us us' : Z) :
  0 <= s < 4294967296 -> 0 <= s' < 4294967296 ->
  datetime_at s us = datetime_at s' us' -> s = s' /\ us = us'.
Proof.
  intros Hs Hs' H. unfold datetime_at in H.
  destruct (civil_from_days (s / 86400)) as [[y m] d] eqn:Hc.
  destruct (civil_from_days (s' / 86400)) as [[y' m'] d'] eqn:Hc'.
  injection H as -> -> -> Hh Hm Hsec ->.
  assert (Hd : 0 <= s / 86400 < 49711)
    by (Z.to_euclidean_division_equations; lia).
  assert (Hd' : 0 <= s' / 86400 < 49711)
    by (Z.to_euclidean_division_equations; lia).
  pose proof (days_from_civil_from_days _ _ _ _ Hd Hc) as Hday.
  pose proof (days_from_civil_from_days _ _ _ _ Hd' Hc') as Hday'.
  rewrite Hday in Hday'. clear Hc Hc' Hday.
  split; [|done]. Z.to_euclidean_division_equations. lia.
Qed.

(** The derived start time tells timestamps apart: two events whose [ts]
    differ, be it by a millisecond, get different start times, so the time
    table has one row for each distinct [ts] (for timestamps from 1970 to early
    2106). *)
Theorem get_datetime_inj :
  forall z z' : Z,
    0 <= z < 4294967296000 -> 0 <= z' < 4294967296000 ->
    get_datetime (Int z) = get_datetime (Int z') -> z = z'.
Proof.
  intros z z' Hz Hz' H.
  rewrite !get_datetime_Int in H by done. unfold start_time_of in H.
  assert (Hdt : datetime_at (z / 1000) (z mod 1000 * 1000)
                = datetime_at (z' / 1000) (z' mod 1000 * 1000)) by congruence.
  clear H. apply datetime_at_inj in Hdt as [Hs Hus];
    Z.to_euclidean_division_equations; lia.
Qed.

Lemma get_datetime_inj_witness :
  get_datetime (Int 1541121934796) = get_datetime (Int 1541121934797)
  <-> 1541121934796 = 1541121934797.
Proof.
  split.
  - apply (get_datetime_inj 1541121934796 1541121934797); lia.
  - intros H. lia.
Defined.

(** ** Fields a record lacks (lines 58 to 62) *)

(** A field of the songs table that no catalog record carries is null in
    every songs row: reading against the declared schema fills it in, and the
    projection of line 62 still goes through. *)
Theorem songs_table_missing_field :
  forall (raw : DataFrame) (name : string) (k : nat),
    columns !! k = Some name ->
    name ∉ df_columns raw ->
    exists t,
      songs_table_of (apply_schema song_schema raw) = Ok t
      /\ Forall (fun r => cell k r = Null) (df_rows t).
Proof.
  intros raw name k Hk Hmiss. rewrite songs_table_of_schema.
  eexists. split; [reflexivity|]. cbn [df_rows apply_schema].
  rewrite !Forall_fmap. apply Forall_true. intros r.
  assert (Hres : resolve name (df_columns raw)
                 = Err (AnalysisException (CannotResolve name))).
  { unfold resolve. by rewrite (proj2 (positions_nil _ _) Hmiss). }
  do 5 (destruct k as [|k];
        [injection Hk as <-; cbn; unfold cell; cbn; by rewrite Hres|]).
  discriminate.
Qed.

Lemma songs_table_missing_field_witness :
  exists t,
    songs_table_of
      (apply_schema song_schema
         (mkDataFrame ["song_id"; "title"; "artist_id"; "duration"]
            [ [Str "SO1"; Str "Jenny Take a Ride"; Str "AR1"; Dbl 7] ]))
    = Ok t
    /\ Forall (fun r => cell 3 r = Null) (df_rows t).
Proof.
  apply (songs_table_missing_field
           (mkDataFrame ["song_id"; "title"; "artist_id"; "duration"]
              [ [Str "SO1"; Str "Jenny Take a Ride"; Str "AR1"; Dbl 7] ])
           "year" 3%nat).
  - reflexivity.
  - apply positions_nil. reflexivity.
Defined.

(** ** A log that cannot be filtered (lines 90 to 93) *)

(** Without a log under the input root, or with a log that has no [page]
    column, [process_log_data] raises at once and writes nothing: reading
    raises an AnalysisException, [df.page] an AttributeError. *)
Theorem process_log_data_input_errors :
  forall (input_data output_data : string) (σ : gmap string Table),
    (σ !! glob_base (input_data +:+ "log_data/*/*/*.json") = None ->
     process_log_data input_data output_data σ
     = (σ, Err (AnalysisException
                  (PathDoesNotExist (input_data +:+ "log_data/*/*/*.json")))))
    /\ (forall raw,
          σ !! glob_base (input_data +:+ "log_data/*/*/*.json") = Some raw ->
          "page" ∉ df_columns (contents raw) ->
          process_log_data input_data output_data σ
          = (σ, Err (AttributeError "page"))).
Proof.
  intros input_data output_data σ.
  unfold process_log_data, read, mbind, M_bind, lift. split.
  - intros ->. reflexivity.
  - intros raw -> Hpage. unfold song_plays, getattr.
    rewrite bool_decide_eq_false_2 by done. reflexivity.
Qed.

Example process_log_data_no_page :
  process_log_data "s3a://udacity-dend/" "s3a://datalake-project-jin/output/"
    {[ "s3a://udacity-dend/log_data/" := mkTable [] (mkDataFrame ["ts"] [[Int 1]]) ]}
  = ({[ "s3a://udacity-dend/log_data/" := mkTable [] (mkDataFrame ["ts"] [[Int 1]]) ]},
     Err (AttributeError "page")).
Proof. vm_compute. reflexivity. Qed.
